(** * Medical data ingestion: a shallow embedding of
      [agents/rag_agent/data_ingestion.py] (class [MedicalDataIngestion])

    The Python class converts text, CSV, JSON and PDF files into documents
    (a content value and a metadata dict) and keeps three counters in
    [self.stats].  The embedding below follows the source method by method:

    - Python values, insertion-ordered dicts, [max(..., key=...)] and
      exceptions live in [Module Py];
    - the file system and what the external readers ([open], [pandas],
      [json], [PyPDF2]) return on a file live in [Module World];
    - the methods of the class, with [self.stats] threaded explicitly,
      live in [Module Ingestion];
    - the statements proved about them come last. *)

From Stdlib Require Import List String Ascii Bool Arith ZArith QArith Lia.
From Stdlib Require Import DecimalString.
Import ListNotations.

Close Scope Q_scope.
Local Open Scope string_scope.
Local Open Scope list_scope.
Local Open Scope nat_scope.

(* ================================================================== *)
(** ** Python values, dicts and exceptions *)
(* ================================================================== *)

Module Py.

(** *** Strings.  A Rocq [string] stands for a Python [str]; one [ascii]
    stands for one character, so [String.length] is Python's [len]. *)

(** One character of [s.lower()].  The capitals among the code points
    below 256 are A-Z and 192-222 without the multiplication sign 215;
    each has its small letter 32 places further. *)
Definition lower_char (c : ascii) : ascii :=
  let n := nat_of_ascii c in
  if ((65 <=? n) && (n <=? 90))
     || ((192 <=? n) && (n <=? 222) && negb (n =? 215))
  then ascii_of_nat (n + 32)
  else c.

(** [s.lower()] *)
Fixpoint lower (s : string) : string :=
  match s with
  | EmptyString => EmptyString
  | String c s' => String (lower_char c) (lower s')
  end.

(** [s.startswith(p)] *)
Definition startswith (s p : string) : bool := String.prefix p s.

(** [s[1:]] *)
Definition drop_first (s : string) : string :=
  match s with
  | EmptyString => EmptyString
  | String _ s' => s'
  end.

(** [s[i:]] *)
Fixpoint slice_from (i : nat) (s : string) : string :=
  match i, s with
  | O, _ => s
  | S i', String _ s' => slice_from i' s'
  | S _, EmptyString => EmptyString
  end.

(** [s.endswith(p)] *)
Definition endswith (s p : string) : bool :=
  (String.length p <=? String.length s)
  && String.eqb (slice_from (String.length s - String.length p) s) p.

(** [s.rfind(c)], counted from position [i] of the whole string;
    [None] stands for Python's [-1]. *)
Fixpoint rfind_from (c : ascii) (s : string) (i : nat) : option nat :=
  match s with
  | EmptyString => None
  | String c' s' =>
      match rfind_from c s' (S i) with
      | Some j => Some j
      | None => if Ascii.eqb c' c then Some i else None
      end
  end.

Definition rfind (c : ascii) (s : string) : option nat := rfind_from c s 0.

(** [str(n)] for a non-negative integer. *)
Definition str_nat (n : nat) : string := NilZero.string_of_uint (Nat.to_uint n).

(** [bool(s)] for a string: the empty string is falsy. *)
Definition nonempty (s : string) : bool :=
  match s with
  | EmptyString => false
  | String _ _ => true
  end.

(** *** Values.  What [json.load] returns and what a metadata dict holds.
    Floats are only ever copied by the code that handles these values, so
    a float is carried as its IEEE-754 binary64 bit pattern. *)

#[warnings="-register-all"]
Inductive value : Type :=
| VNone
| VBool (b : bool)
| VInt (z : Z)
| VFloat (bits : Z)
| VStr (s : string)
| VList (l : list value)
| VDict (d : list (string * value)).

(** [isinstance(v, str)] *)
Definition is_str (v : value) : bool :=
  match v with VStr _ => true | _ => false end.

(** [isinstance(v, (str, int, float, bool))] *)
Definition is_scalar (v : value) : bool :=
  match v with
  | VStr _ | VInt _ | VFloat _ | VBool _ => true
  | VNone | VList _ | VDict _ => false
  end.

(** [bool(v)] *)
Definition truthy (v : value) : bool :=
  match v with
  | VNone => false
  | VBool b => b
  | VInt z => negb (Z.eqb z 0)
  | VFloat bits => negb (Z.eqb (Z.land bits (Z.ones 63)) 0)
  | VStr s => nonempty s
  | VList l => match l with [] => false | _ => true end
  | VDict d => match d with [] => false | _ => true end
  end.

(** *** Dicts.  A Python dict keeps its keys in insertion order and
    assigning to a key that is present replaces the value in place. *)

Definition dict (V : Type) : Type := list (string * V).

Definition keys {V} (d : dict V) : list string := map fst d.

(** [d[k]] ([None] where Python raises [KeyError]) and [k in d]. *)
Fixpoint dict_get {V} (d : dict V) (k : string) : option V :=
  match d with
  | [] => None
  | (k', v) :: d' => if String.eqb k k' then Some v else dict_get d' k
  end.

Definition dict_mem {V} (d : dict V) (k : string) : bool :=
  match dict_get d k with Some _ => true | None => false end.

(** [d[k] = v] *)
Fixpoint dict_set {V} (d : dict V) (k : string) (v : V) : dict V :=
  match d with
  | [] => [(k, v)]
  | (k', v') :: d' =>
      if String.eqb k k' then (k, v) :: d' else (k', v') :: dict_set d' k v
  end.

(** *** [max(items, key=...)].  CPython keeps the first item and replaces
    it only by a later item whose key is strictly greater. *)

Section Max.
Context {A K : Type} (key : A -> K) (gt : K -> K -> bool).

Fixpoint max_from (best : A) (l : list A) : A :=
  match l with
  | [] => best
  | x :: l' => max_from (if gt (key x) (key best) then x else best) l'
  end.

(** [None] where Python raises [ValueError] on an empty sequence. *)
Definition py_max (l : list A) : option A :=
  match l with
  | [] => None
  | x :: l' => Some (max_from x l')
  end.
End Max.

(** [enumerate(l)] *)
Definition enumerate {A} (l : list A) : list (nat * A) :=
  combine (seq 0 (List.length l)) l.

(** The newline character. *)
Definition nl : string := String (ascii_of_nat 10) EmptyString.

(** *** Exceptions and results. *)

Inductive exn_kind : Type :=
| ValueError
| FileNotFoundError
| IsADirectoryError
| IndexError
| KeyError
| ReaderError.   (* whatever an external reader raises on a bad payload *)

Record exn : Type := Exn { kind : exn_kind; message : string }.

(** [str(e)] *)
Definition str_exn (e : exn) : string := message e.

Inductive result (A : Type) : Type :=
| Ok (a : A)
| Raise (e : exn).
Arguments Ok {A} a.
Arguments Raise {A} e.

End Py.

(* ================================================================== *)
(** ** The file system and the external readers *)
(* ================================================================== *)

Module World.
Import Py.

(** *** What [pandas.read_csv] returns.  The code looks at a cell only
    through [pd.isna(x)] and [str(x)], and at a column only through its
    name and whether its dtype is [object]; [read_csv] pads a short row
    with NaN. *)

Record cell : Type := Cell { isna : bool; str_cell : string }.

Definition nan_cell : cell := {| isna := true; str_cell := "nan" |}.

Record column : Type := Column { col_name : string; dtype_object : bool }.

Record DataFrame : Type := Frame {
  df_columns : list column;
  df_rows : list (list cell)
}.

(** [df.columns] *)
Definition columns (df : DataFrame) : list string :=
  map col_name (df_columns df).

(** [row[col]] for a row of [df.iterrows()] *)
Fixpoint row_get (cols : list string) (row : list cell) (col : string) : cell :=
  match cols with
  | [] => nan_cell
  | c :: cols' =>
      match row with
      | [] => nan_cell
      | x :: row' => if String.eqb col c then x else row_get cols' row' col
      end
  end.

(** [df[col]], the values of one column in row order *)
Definition series (df : DataFrame) (col : string) : list cell :=
  map (fun row => row_get (columns df) row col) (df_rows df).

(** [df[col].dtype == 'object'], for a label that occurs once among the
    columns, as every label of a frame from [read_csv] does (on a
    repeated label pandas gives [df[col]] no [dtype]). *)
Definition is_object (df : DataFrame) (col : string) : bool :=
  match find (fun c => String.eqb col (col_name c)) (df_columns df) with
  | Some c => dtype_object c
  | None => false
  end.

(** [s.mean()] for a series of lengths: NaN ([None]) on an empty series.
    The sums stay far below 2^52, where binary64 division by a common row
    count keeps distinct sums distinct and in order, so the exact quotient
    compares as the float does. *)
Definition mean (lens : list nat) : option Q :=
  match lens with
  | [] => None
  | _ :: _ =>
      Some (Qmake (Z.of_nat (fold_left Nat.add lens 0))
                  (Pos.of_nat (List.length lens)))
  end.

(** [x > y] on floats: false as soon as one side is NaN. *)
Definition float_gt (x y : option Q) : bool :=
  match x, y with
  | Some a, Some b => negb (Qle_bool a b)
  | _, _ => false
  end.

(** *** What [PyPDF2.PdfReader] gives: the text [extract_text()] returns
    for each page, and [reader.metadata] ([None] when the file has no
    information block). *)

Record PdfReader : Type := Pdf {
  pages : list string;
  pdf_metadata : option (dict value)
}.

(** *** Files.  A file is known by what each reader returns on it, or the
    exception the reader raises. *)

Record file : Type := FileViews {
  read_text : result string;     (* open(p, 'r', encoding='utf-8').read() *)
  read_csv : result DataFrame;   (* pd.read_csv(p) *)
  json_load : result value;      (* json.load(open(p, ...)) *)
  pdf_reader : result PdfReader  (* PdfReader(p), its pages and metadata *)
}.

(** *** The tree of files.  [Absent] as a directory entry is a name that
    is listed but does not resolve (a dangling link, or a file removed
    after the listing). *)

#[warnings="-register-all"]
Inductive node : Type :=
| Absent
| Dir (entries : list (string * node))
| File (f : file).

Definition path : Type := list string.

Fixpoint entry (es : list (string * node)) (name : string) : node :=
  match es with
  | [] => Absent
  | (n, x) :: es' => if String.eqb name n then x else entry es' name
  end.

Fixpoint resolve (root : node) (p : path) : node :=
  match p with
  | [] => root
  | c :: p' =>
      match root with
      | Dir es => resolve (entry es c) p'
      | _ => Absent
      end
  end.

(** [p.exists()], [p.is_dir()], [p.is_file()] *)
Definition exists_ (n : node) : bool :=
  match n with Absent => false | _ => true end.
Definition is_dir (n : node) : bool :=
  match n with Dir _ => true | _ => false end.
Definition is_file (n : node) : bool :=
  match n with File _ => true | _ => false end.

(** [str(p)] and [p.name] *)
Definition str_path (p : path) : string := String.concat "/" p.
Definition name (p : path) : string := List.last p "".

(** [p.suffix], as pathlib computes it: the part of the name from its
    last dot, unless that dot starts or ends the name. *)
Definition suffix (p : path) : string :=
  let nm := name p in
  match rfind "." nm with
  | Some i =>
      if (0 <? i) && (i <? String.length nm - 1) then slice_from i nm else ""
  | None => ""
  end.

(** The readers applied to a node: on a directory they raise.  The
    message stands for the text of the operating system's error, which
    also carries an error number and the path. *)
Definition not_a_file {A} (n : node) : result A :=
  match n with
  | Dir _ => Raise (Exn IsADirectoryError "Is a directory")
  | _ => Raise (Exn FileNotFoundError "No such file or directory")
  end.

Definition open_read (n : node) : result string :=
  match n with File f => read_text f | _ => not_a_file n end.
Definition pd_read_csv (n : node) : result DataFrame :=
  match n with File f => read_csv f | _ => not_a_file n end.
Definition open_json_load (n : node) : result value :=
  match n with File f => json_load f | _ => not_a_file n end.
Definition PdfReader_ (n : node) : result PdfReader :=
  match n with File f => pdf_reader f | _ => not_a_file n end.

(** An extension that [glob] reads as plain text: it holds no pattern
    syntax and no separator. *)
Definition plain_char (c : ascii) : bool :=
  negb (Ascii.eqb c "*" || Ascii.eqb c "?" || Ascii.eqb c "["
        || Ascii.eqb c "/")%bool.

Fixpoint plain_text (ext : string) : bool :=
  match ext with
  | EmptyString => true
  | String c ext' => plain_char c && plain_text ext'
  end.

(** [directory.iterdir()] and [directory.glob("*" + ext)] as lists of
    paths, in the order of the listing.  [glob_suffix] is what [glob]
    lists for an extension that is [plain_text]; a statement that names
    the listing under a filter assumes that of the filter. *)
Definition iterdir (root : node) (d : path) : list path :=
  match resolve root d with
  | Dir es => map (fun e => d ++ [fst e]) es
  | _ => []
  end.

Definition glob_suffix (root : node) (d : path) (ext : string) : list path :=
  filter (fun p => endswith (name p) ext) (iterdir root d).

End World.

(* ================================================================== *)
(** ** The class [MedicalDataIngestion] *)
(* ================================================================== *)

Module Ingestion.
Import Py World.

(** *** [self.stats] *)

Record Stats : Type := mkStats {
  files_processed : nat;
  documents_ingested : nat;
  errors : nat
}.

(** [__init__] *)
Definition init_stats : Stats :=
  {| files_processed := 0; documents_ingested := 0; errors := 0 |}.

(** *** Documents and the dict a method returns *)

Record Document : Type := mkDocument {
  content : value;
  metadata : dict value
}.

Inductive IngestionResult : Type :=
| SuccessDocument (document : Document)           (* success, "document" *)
| SuccessDocuments (documents : list Document)    (* success, "documents" *)
| Failure (error : string).                       (* no success, "error" *)

(** *** Methods run on [self.stats] and may raise: a computation takes
    the counters and gives a value or an exception, with the counters as
    the method left them. *)

Definition M (A : Type) : Type := Stats -> result A * Stats.

Definition ret {A} (a : A) : M A := fun s => (Ok a, s).

Definition raise {A} (e : exn) : M A := fun s => (Raise e, s).

Definition bind {A B} (m : M A) (f : A -> M B) : M B :=
  fun s =>
    match m s with
    | (Ok a, s') => f a s'
    | (Raise e, s') => (Raise e, s')
    end.

(** [try: m  except Exception as e: h e] *)
Definition try_except {A} (m : M A) (h : exn -> M A) : M A :=
  fun s =>
    match m s with
    | (Ok a, s') => (Ok a, s')
    | (Raise e, s') => h e s'
    end.

(** A call into a library that returns or raises. *)
Definition lift {A} (r : result A) : M A := fun s => (r, s).

Notation "x <- m ;; k" := (bind m (fun x => k))
  (at level 61, m at next level, right associativity).
Notation "m ;;; k" := (bind m (fun _ => k))
  (at level 61, right associativity).

(** [for x in l: acc = body acc x], the local variable [acc] carried
    through the loop. *)
Fixpoint for_each {A B} (l : list A) (body : B -> A -> M B) (acc : B) : M B :=
  match l with
  | [] => ret acc
  | x :: l' => acc' <- body acc x ;; for_each l' body acc'
  end.

(** [self.stats["documents_ingested"] += n] and its two siblings *)
Definition add_documents_ingested (n : nat) : M unit := fun s =>
  (Ok tt, {| files_processed := files_processed s;
             documents_ingested := documents_ingested s + n;
             errors := errors s |}).

Definition incr_files_processed : M unit := fun s =>
  (Ok tt, {| files_processed := files_processed s + 1;
             documents_ingested := documents_ingested s;
             errors := errors s |}).

Definition incr_errors : M unit := fun s =>
  (Ok tt, {| files_processed := files_processed s;
             documents_ingested := documents_ingested s;
             errors := errors s + 1 |}).

(** [d[k]] where a missing key raises *)
Definition getitem {V} (d : dict V) (k : string) : M V :=
  match dict_get d k with
  | Some v => ret v
  | None => raise (Exn KeyError k)
  end.

(** *** [_ingest_text_file] *)

Definition _ingest_text_file (root : node) (file_path : path)
  : M IngestionResult :=
  try_except
    (content <- lift (open_read (resolve root file_path)) ;;
     let metadata :=
       [("source", VStr (name file_path)); ("file_type", VStr "txt")] in
     let document := {| content := VStr content; metadata := metadata |} in
     add_documents_ingested 1 ;;;
     ret (SuccessDocument document))
    (fun e => ret (Failure (str_exn e))).

(** *** [_identify_content_column] *)

Definition content_column_names : list string :=
  ["content"; "text"; "description"; "abstract"; "body"].

Definition avg_lengths (df : DataFrame) : dict (option Q) :=
  fold_left
    (fun acc col =>
       if is_object df col
       then dict_set acc col
              (mean (map (fun x => String.length (str_cell x)) (series df col)))
       else acc)
    (columns df) [].

Definition _identify_content_column (df : DataFrame) : M string :=
  match
    find (fun name => existsb (String.eqb name) (columns df))
         content_column_names
  with
  | Some name => ret name
  | None =>
      match avg_lengths df with
      | first :: rest => ret (fst (max_from snd float_gt first rest))
      | [] =>
          match columns df with
          | c :: _ => ret c
          | [] => raise (Exn IndexError "index 0 is out of bounds for axis 0 with size 0")
          end
      end
  end.

(** *** [_ingest_csv_file] *)

Definition csv_row_metadata (file_path : path) (df : DataFrame)
    (text_column : string) (row : list cell) : dict value :=
  fold_left
    (fun metadata col =>
       let x := row_get (columns df) row col in
       if negb (String.eqb col text_column) && negb (isna x)
       then dict_set metadata col (VStr (str_cell x))
       else metadata)
    (columns df)
    [("source", VStr (name file_path)); ("file_type", VStr "csv")].

Definition _ingest_csv_file (root : node) (file_path : path)
  : M IngestionResult :=
  try_except
    (df <- lift (pd_read_csv (resolve root file_path)) ;;
     text_column <- _identify_content_column df ;;
     documents <-
       for_each (df_rows df)
         (fun documents row =>
            let content :=
              VStr (str_cell (row_get (columns df) row text_column)) in
            let metadata := csv_row_metadata file_path df text_column row in
            ret (documents ++ [{| content := content; metadata := metadata |}]))
         [] ;;
     add_documents_ingested (List.length documents) ;;;
     ret (SuccessDocuments documents))
    (fun e => ret (Failure (str_exn e))).

(** *** [_identify_json_content_field] *)

Definition content_field_names : list string :=
  ["content"; "text"; "description"; "abstract"; "body"].

Definition text_fields (item : dict value) : dict nat :=
  fold_left
    (fun acc kv =>
       match snd kv with
       | VStr s =>
           if 50 <? String.length s
           then dict_set acc (fst kv) (String.length s)
           else acc
       | _ => acc
       end)
    item [].

Definition nat_gt (x y : nat) : bool := y <? x.

Definition _identify_json_content_field (item : dict value) : option string :=
  match
    find (fun name =>
            dict_mem item name
            && match dict_get item name with
               | Some v => is_str v
               | None => false
               end)
         content_field_names
  with
  | Some name => Some name
  | None =>
      match text_fields item with
      | first :: rest => Some (fst (max_from snd nat_gt first rest))
      | [] => None
      end
  end.

(** [if content_field:] is false on [None] and on the empty name. *)
Definition field_found (content_field : option string) : option string :=
  match content_field with
  | Some f => if nonempty f then Some f else None
  | None => None
  end.

(** *** [_ingest_json_file] *)

(** The loop [for key, value in item.items(): if key != content_field and
    isinstance(value, (str, int, float, bool)): metadata[key] = value]. *)
Definition json_metadata_loop (item : dict value) (content_field : string)
    (metadata : dict value) : dict value :=
  fold_left
    (fun metadata kv =>
       if negb (String.eqb (fst kv) content_field) && is_scalar (snd kv)
       then dict_set metadata (fst kv) (snd kv)
       else metadata)
    item metadata.

Definition json_list_body (file_path : path)
    (documents : list Document) (item : value) : M (list Document) :=
  match item with
  | VDict item =>
      match field_found (_identify_json_content_field item) with
      | Some content_field =>
          content <- getitem item content_field ;;
          let metadata :=
            [("source", VStr (name file_path)); ("file_type", VStr "json")] in
          let metadata := json_metadata_loop item content_field metadata in
          ret (documents ++ [{| content := content; metadata := metadata |}])
      | None => ret documents
      end
  | _ => ret documents
  end.

Definition json_dict_body (file_path : path)
    (documents : list Document) (kv : string * value) : M (list Document) :=
  let key := fst kv in
  match snd kv with
  | VStr s =>
      if 100 <? String.length s
      then ret (documents ++
                  [{| content := VStr s;
                      metadata := [("source", VStr (name file_path));
                                   ("file_type", VStr "json");
                                   ("key", VStr key)] |}])
      else ret documents
  | VDict value =>
      match field_found (_identify_json_content_field value) with
      | Some content_field =>
          content <- getitem value content_field ;;
          let metadata :=
            [("source", VStr (name file_path)); ("file_type", VStr "json");
             ("document_id", VStr key)] in
          let metadata := json_metadata_loop value content_field metadata in
          ret (documents ++ [{| content := content; metadata := metadata |}])
      | None => ret documents
      end
  | _ => ret documents
  end.

Definition _ingest_json_file (root : node) (file_path : path)
  : M IngestionResult :=
  try_except
    (data <- lift (open_json_load (resolve root file_path)) ;;
     documents <-
       match data with
       | VList items => for_each items (json_list_body file_path) []
       | VDict d => for_each d (json_dict_body file_path) []
       | _ => ret []
       end ;;
     match documents with
     | [] => ret (Failure "No valid documents found")
     | _ :: _ =>
         add_documents_ingested (List.length documents) ;;;
         ret (SuccessDocuments documents)
     end)
    (fun e => ret (Failure (str_exn e))).

(** *** [_ingest_pdf_file] *)

Definition page_block (page_num : nat) (page_text : string) : string :=
  ("--- Page " ++ str_nat (page_num + 1) ++ " ---" ++ nl
     ++ page_text ++ nl ++ nl)%string.

Definition pdf_content (reader : PdfReader) : string :=
  fold_left
    (fun content np =>
       let page_num := fst np in
       let page_text := snd np in
       if nonempty page_text
       then (content ++ page_block page_num page_text)%string
       else content)
    (enumerate (pages reader)) "".

Definition pdf_metadata_loop (info : dict value) (metadata : dict value)
  : dict value :=
  fold_left
    (fun metadata kv =>
       let key := fst kv in
       let value := snd kv in
       if nonempty key && truthy value && is_str value
       then
         let clean_key := if startswith key "/" then drop_first key else key in
         dict_set metadata (lower clean_key) value
       else metadata)
    info metadata.

Definition _ingest_pdf_file (root : node) (file_path : path)
  : M IngestionResult :=
  try_except
    (reader <- lift (PdfReader_ (resolve root file_path)) ;;
     let content := pdf_content reader in
     let metadata :=
       [("source", VStr (name file_path)); ("file_type", VStr "pdf");
        ("num_pages", VInt (Z.of_nat (List.length (pages reader))))] in
     let metadata :=
       match pdf_metadata reader with
       | Some info =>
           if truthy (VDict info)
           then pdf_metadata_loop info metadata
           else metadata
       | None => metadata
       end in
     let document := {| content := VStr content; metadata := metadata |} in
     add_documents_ingested 1 ;;;
     ret (SuccessDocument document))
    (fun e => ret (Failure (str_exn e))).

(** *** [ingest_file] *)

Definition ingest_file (root : node) (file_path : path) : M IngestionResult :=
  if negb (exists_ (resolve root file_path))
  then raise (Exn FileNotFoundError
                ("File not found: " ++ str_path file_path)%string)
  else if String.eqb (lower (suffix file_path)) ".txt"
  then _ingest_text_file root file_path
  else if String.eqb (lower (suffix file_path)) ".csv"
  then _ingest_csv_file root file_path
  else if String.eqb (lower (suffix file_path)) ".json"
  then _ingest_json_file root file_path
  else if String.eqb (lower (suffix file_path)) ".pdf"
  then _ingest_pdf_file root file_path
  else ret (Failure "Unsupported file format").

(** *** [ingest_directory] *)

(** The files the call works through: [glob] under a filter that is
    given and not empty, the regular files of [iterdir] otherwise. *)
Definition listing (root : node) (directory : path)
    (file_extension : option string) : list path :=
  match file_extension with
  | Some ext =>
      if nonempty ext
      then glob_suffix root directory ext
      else filter (fun f => is_file (resolve root f)) (iterdir root directory)
  | None => filter (fun f => is_file (resolve root f)) (iterdir root directory)
  end.

(** One turn of [for file_path in files]. *)
Definition directory_loop_body (root : node) (file_path : path) : M unit :=
  try_except
    (ingest_file root file_path ;;; incr_files_processed)
    (fun e => incr_errors).

Definition ingest_directory (root : node) (directory_path : path)
    (file_extension : option string) : M Stats :=
  try_except
    (let directory := directory_path in
     (if negb (exists_ (resolve root directory))
         || negb (is_dir (resolve root directory))
      then raise (Exn ValueError
                    ("Directory does not exist: " ++ str_path directory_path)%string)
      else ret tt) ;;;
     let files := listing root directory file_extension in
     for_each files (fun _ file_path => directory_loop_body root file_path) tt ;;;
     fun stats => (Ok stats, stats))
    (fun e => fun stats => (Ok stats, stats)).

End Ingestion.

(* ================================================================== *)
(** ** Vocabulary of the statements *)
(* ================================================================== *)

Module Statements.
Import Py World Ingestion.

(** The counters with [n] more documents and nothing else changed. *)
Definition bump (n : nat) (s : Stats) : Stats :=
  {| files_processed := files_processed s;
     documents_ingested := documents_ingested s + n;
     errors := errors s |}.

(** A method that, from any counters, ends with outcome [r] and [n] more
    documents counted. *)
Definition outcome {A} (m : M A) (r : result A) (n : nat) : Prop :=
  forall s, m s = (r, bump n s).

(** A method that leaves [files_processed] and [errors] as it found
    them, however it ends. *)
Definition preserves_file_counters {A} (m : M A) : Prop :=
  forall s,
    files_processed (snd (m s)) = files_processed s
    /\ errors (snd (m s)) = errors s.

(** A method is _uniform_ when its outcome and the number of documents it
    counts do not depend on the counters it starts from. *)
Definition uniform {A} (m : M A) : Prop := exists r n, outcome m r n.

(** The documents carried by a returned dict. *)
Definition documents_of (r : IngestionResult) : list Document :=
  match r with
  | SuccessDocument d => [d]
  | SuccessDocuments ds => ds
  | Failure _ => []
  end.

Definition returned_documents (r : result IngestionResult) : list Document :=
  match r with
  | Ok x => documents_of x
  | Raise _ => []
  end.

(** The value at [name] is a string. *)
Definition has_text (item : dict value) (name : string) : Prop :=
  exists s, dict_get item name = Some (VStr s).

(** What either loop of [_ingest_json_file] makes of one object, from
    the metadata [base] the loop starts it with: the branch of the code,
    as a list of at most one document. *)
Definition nested_record (base : dict value) (item : dict value)
  : list Document :=
  match field_found (_identify_json_content_field item) with
  | Some f =>
      match dict_get item f with
      | Some c => [{| content := c; metadata := json_metadata_loop item f base |}]
      | None => []
      end
  | None => []
  end.

(** What the loop over a single mapping makes of one top-level key: the
    branch of the code, as a list of at most one document. *)
Definition mapping_documents (file_path : path) (kv : string * value)
  : list Document :=
  match snd kv with
  | VStr s =>
      if 100 <? String.length s
      then [{| content := VStr s;
               metadata := [("source", VStr (name file_path));
                            ("file_type", VStr "json");
                            ("key", VStr (fst kv))] |}]
      else []
  | VDict o =>
      nested_record [("source", VStr (name file_path));
                     ("file_type", VStr "json");
                     ("document_id", VStr (fst kv))] o
  | _ => []
  end.

(** The documents of a parsed JSON payload: those of its items for a
    list, those of its keys for a mapping, none for anything else. *)
Definition payload_documents (file_path : path) (data : value)
  : list Document :=
  match data with
  | VList items =>
      flat_map
        (fun item =>
           match item with
           | VDict o =>
               nested_record [("source", VStr (name file_path));
                              ("file_type", VStr "json")] o
           | _ => []
           end)
        items
  | VDict d => flat_map (mapping_documents file_path) d
  | _ => []
  end.

(** The number of documents [ingest_file] returns for a file. *)
Definition documents_of_file (root : node) (file_path : path) : nat :=
  List.length (returned_documents (fst (ingest_file root file_path init_stats))).

(** The counters moved by [a] files processed, [b] documents and [c]
    errors. *)
Definition add_stats (a b c : nat) (s : Stats) : Stats :=
  {| files_processed := files_processed s + a;
     documents_ingested := documents_ingested s + b;
     errors := errors s + c |}.

(** A filter under which [listing] is what the code lists: none, or an
    extension that [glob] reads as plain text. *)
Definition plain_filter (file_extension : option string) : Prop :=
  match file_extension with
  | Some ext => plain_text ext = true
  | None => True
  end.

(** The listed paths that exist, those that do not, and the documents
    the listed files give together. *)
Definition present (root : node) (files : list path) : list path :=
  filter (fun f => exists_ (resolve root f)) files.

Definition missing (root : node) (files : list path) : list path :=
  filter (fun f => negb (exists_ (resolve root f))) files.

Definition total_documents (root : node) (files : list path) : nat :=
  list_sum (map (documents_of_file root) files).

Definition batch_stats (root : node) (files : list path) (s : Stats) : Stats :=
  add_stats (List.length (present root files)) (total_documents root files)
            (List.length (missing root files)) s.

(** What one item of a collection contributes. *)
Definition collection_documents (file_path : path) (item : value)
  : list Document :=
  match item with
  | VDict o =>
      nested_record [("source", VStr (name file_path));
                     ("file_type", VStr "json")] o
  | _ => []
  end.

(** The combined text of a paginated document, in the words of the
    specification: pages are numbered from [n], a page with text gives its
    marker line and its text, a page without text gives nothing. *)
Fixpoint pages_text (n : nat) (pages : list string) : string :=
  match pages with
  | [] => ""
  | t :: pages' =>
      ((if nonempty t
        then "--- Page " ++ str_nat n ++ " ---" ++ nl ++ t ++ nl ++ nl
        else "")
       ++ pages_text (S n) pages')%string
  end.

(** The metadata key a PDF information key ends up under. *)
Definition pdf_clean_key (key : string) : string :=
  lower (if startswith key "/" then drop_first key else key).

(** An information entry that the PDF loop copies. *)
Definition pdf_copied (kv : string * value) : bool :=
  nonempty (fst kv) && truthy (snd kv) && is_str (snd kv).

(** One turn of a loop that assigns [d[kf a] = v] for the items [a] that
    [g] keeps, and what such an item adds to a dict without its key. *)
Definition collect_step {A V} (kf : A -> string) (g : A -> option V)
    (acc : dict V) (a : A) : dict V :=
  match g a with
  | Some v => dict_set acc (kf a) v
  | None => acc
  end.

Definition kept {A V} (kf : A -> string) (g : A -> option V) (a : A)
  : list (string * V) :=
  match g a with
  | Some v => [(kf a, v)]
  | None => []
  end.

(** What the field heuristic keeps of one field: the length of a string
    longer than 50 characters. *)
Definition long_text (kv : string * value) : option nat :=
  match snd kv with
  | VStr s => if 50 <? String.length s then Some (String.length s) else None
  | _ => None
  end.

(** What the column heuristic keeps of one column: the mean length of a
    column of dtype [object]. *)
Definition object_mean (df : DataFrame) (col : string) : option (option Q) :=
  if is_object df col
  then Some (mean (map (fun x => String.length (str_cell x)) (series df col)))
  else None.

(** What the loops over metadata keep of one item. *)
Definition csv_kept (df : DataFrame) (text_column : string) (row : list cell)
    (col : string) : option value :=
  let x := row_get (columns df) row col in
  if negb (String.eqb col text_column) && negb (isna x)
  then Some (VStr (str_cell x))
  else None.

Definition json_kept (content_field : string) (kv : string * value)
  : option value :=
  if negb (String.eqb (fst kv) content_field) && is_scalar (snd kv)
  then Some (snd kv)
  else None.

Definition pdf_kept (kv : string * value) : option value :=
  if pdf_copied kv then Some (snd kv) else None.

(** The document built from one row of a table. *)
Definition csv_document (file_path : path) (df : DataFrame)
    (text_column : string) (row : list cell) : Document :=
  {| content := VStr (str_cell (row_get (columns df) row text_column));
     metadata := csv_row_metadata file_path df text_column row |}.

(** The metadata [_ingest_pdf_file] builds. *)
Definition pdf_file_metadata (file_path : path) (reader : PdfReader)
  : dict value :=
  let metadata :=
    [("source", VStr (name file_path)); ("file_type", VStr "pdf");
     ("num_pages", VInt (Z.of_nat (List.length (pages reader))))] in
  match pdf_metadata reader with
  | Some info =>
      if truthy (VDict info) then pdf_metadata_loop info metadata else metadata
  | None => metadata
  end.

(** The information entries as the loop sees them, also when the block
    is missing or empty. *)
Definition info_entries (reader : PdfReader) : dict value :=
  match pdf_metadata reader with
  | Some info => info
  | None => []
  end.

(** A column the length heuristic measures. *)
Definition text_like (df : DataFrame) (col : string) : Prop :=
  is_object df col = true.

Definition mean_length (df : DataFrame) (col : string) : option Q :=
  mean (map (fun x => String.length (str_cell x)) (series df col)).

End Statements.

(* ================================================================== *)
(** ** Concrete files used as test inputs *)
(* ================================================================== *)

Module Samples.
Import Py World Ingestion.

Definition unreadable {A} : result A := Raise (Exn ReaderError "cannot parse").

Definition text_file (s : string) : node :=
  File {| read_text := Ok s; read_csv := unreadable;
          json_load := unreadable; pdf_reader := unreadable |}.

Definition csv_file (df : DataFrame) : node :=
  File {| read_text := unreadable; read_csv := Ok df;
          json_load := unreadable; pdf_reader := unreadable |}.

Definition json_file (v : value) : node :=
  File {| read_text := unreadable; read_csv := unreadable;
          json_load := Ok v; pdf_reader := unreadable |}.

Definition pdf_file (r : PdfReader) : node :=
  File {| read_text := unreadable; read_csv := unreadable;
          json_load := unreadable; pdf_reader := Ok r |}.

Fixpoint repeat_char (c : ascii) (n : nat) : string :=
  match n with
  | O => EmptyString
  | S n' => String c (repeat_char c n')
  end.

(** A directory with one file of an unsupported format and one text
    file, next to an empty directory. *)
Definition batch_root : node :=
  Dir [("data", Dir [("scan.xyz", text_file "raw bytes");
                     ("note.txt", text_file "hello")]);
       ("empty", Dir [])].


(** A table whose only column is named like the reserved key. *)
Definition df_only_source : DataFrame :=
  {| df_columns := [Column "source" true];
     df_rows := [[Cell false "ward 7"]] |}.

(** A table with a priority column last. *)
Definition df_description_last : DataFrame :=
  {| df_columns := [Column "id" false; Column "title" true;
                    Column "description" true];
     df_rows := [[Cell false "1"; Cell false "Flu"; Cell false "An infection"]] |}.

(** Two text-like columns, no priority name, the second longer. *)
Definition df_heuristic : DataFrame :=
  {| df_columns := [Column "id" false; Column "title" true;
                    Column "notes" true];
     df_rows := [[Cell false "1"; Cell false "Flu"; Cell false "An infection"];
                 [Cell false "2"; Cell false "Cold"; Cell true "nan"]] |}.

Definition intro_text : string := repeat_char "a" 120.

Definition single_mapping : dict value :=
  [("intro", VStr intro_text);
   ("meta", VDict [("content", VStr "hello world"); ("tag", VStr "x")])].

(** A mapping whose record has a field document_id of its own. *)
Definition record_with_document_id : dict value :=
  [("rec1", VDict [("text", VStr "fever"); ("document_id", VStr "mine")])].

Definition short_note : dict value := [("id", VInt 1); ("note", VStr "short")].

Definition long_fields : dict value :=
  [("id", VInt 1); ("summary", VStr (repeat_char "s" 60));
   ("details", VStr (repeat_char "d" 80)); ("remarks", VStr (repeat_char "r" 80))].

Definition three_pages : PdfReader :=
  {| pages := ["first"; ""; "third"]; pdf_metadata := None |}.

Definition blank_pages : PdfReader :=
  {| pages := [""; ""]; pdf_metadata := None |}.

Definition pdf_with_num_pages_key : PdfReader :=
  {| pages := ["first"];
     pdf_metadata := Some [("/Author", VStr "Ann"); ("/Num_Pages", VStr "seven")] |}.

End Samples.

(* ================================================================== *)
(** ** Facts about dicts and [max] *)
(* ================================================================== *)

Module PyFacts.
Import Py.

Section Dict.
Context {V : Type}.
Implicit Types (d : dict V) (k : string) (v : V).

Lemma dict_get_set_same d k v : dict_get (dict_set d k v) k = Some v.
Proof.
  induction d as [|[k' v'] d IH]; simpl.
  - now rewrite String.eqb_refl.
  - destruct (String.eqb k k') eqn:E; simpl.
    + now rewrite String.eqb_refl.
    + now rewrite E.
Qed.

Lemma dict_get_set_other d k k' v :
  k' <> k -> dict_get (dict_set d k v) k' = dict_get d k'.
Proof.
  intros Hne. induction d as [|[k0 v0] d IH]; simpl.
  - destruct (String.eqb k' k) eqn:E; [apply String.eqb_eq in E; congruence|reflexivity].
  - destruct (String.eqb k k0) eqn:E; simpl.
    + apply String.eqb_eq in E. subst k0.
      destruct (String.eqb k' k) eqn:E'; [apply String.eqb_eq in E'; congruence|reflexivity].
    + destruct (String.eqb k' k0); [reflexivity|exact IH].
Qed.

Lemma dict_get_In d k v : dict_get d k = Some v -> In (k, v) d.
Proof.
  induction d as [|[k' v'] d IH]; simpl; [discriminate|].
  destruct (String.eqb k k') eqn:E.
  - apply String.eqb_eq in E. intros [= ->]. left. now subst.
  - intros H. right. auto.
Qed.

Lemma dict_get_None d k : dict_get d k = None <-> ~ In k (keys d).
Proof.
  induction d as [|[k' v'] d IH]; simpl.
  - tauto.
  - destruct (String.eqb k k') eqn:E.
    + apply String.eqb_eq in E. split; [discriminate|]. intros H. exfalso. apply H. now left.
    + apply String.eqb_neq in E. rewrite IH. split.
      * intros H [H'|H']; [congruence|contradiction].
      * intros H H'. apply H. now right.
Qed.

Lemma In_dict_get d k v :
  NoDup (keys d) -> In (k, v) d -> dict_get d k = Some v.
Proof.
  induction d as [|[k' v'] d IH]; simpl; [contradiction|].
  intros Hnd [H|H].
  - injection H as -> ->. now rewrite String.eqb_refl.
  - inversion Hnd as [|? ? Hnotin Hnd']; subst.
    destruct (String.eqb k k') eqn:E.
    + apply String.eqb_eq in E. subst k'. exfalso. apply Hnotin.
      unfold keys. change k with (fst (k, v)). now apply in_map.
    + auto.
Qed.

Lemma dict_mem_keys d k : dict_mem d k = true <-> In k (keys d).
Proof.
  unfold dict_mem. destruct (dict_get d k) eqn:E.
  - split; [intros _|reflexivity].
    apply dict_get_In in E. unfold keys. change k with (fst (k, v)). now apply in_map.
  - split; [discriminate|]. intros H. apply dict_get_None in E. contradiction.
Qed.

(** Assignment keeps the keys where they are, and appends a new one. *)
Lemma keys_dict_set d k v :
  keys (dict_set d k v) = if dict_mem d k then keys d else keys d ++ [k].
Proof.
  unfold dict_mem. induction d as [|[k' v'] d IH]; simpl; [reflexivity|].
  destruct (String.eqb k k') eqn:E; simpl.
  - apply String.eqb_eq in E. now subst.
  - rewrite IH. now destruct (dict_get d k).
Qed.

Lemma In_keys_dict_set d k v k' :
  In k' (keys (dict_set d k v)) <-> k' = k \/ In k' (keys d).
Proof.
  rewrite keys_dict_set. destruct (dict_mem d k) eqn:E.
  - apply dict_mem_keys in E. split; [tauto|]. intros [->|H]; assumption.
  - rewrite in_app_iff. simpl. split; intros H; intuition congruence.
Qed.

Lemma NoDup_keys_dict_set d k v :
  NoDup (keys d) -> NoDup (keys (dict_set d k v)).
Proof.
  intros Hnd. rewrite keys_dict_set. destruct (dict_mem d k) eqn:E; [assumption|].
  assert (Hk : ~ In k (keys d)).
  { intros H. apply dict_mem_keys in H. congruence. }
  clear E. induction Hnd as [|x l Hx Hnd IH]; simpl.
  - constructor; [intros []|constructor].
  - constructor.
    + rewrite in_app_iff. simpl. intros [H|[H|[]]]; [contradiction|].
      apply Hk. left. auto.
    + apply IH. intros H. apply Hk. now right.
Qed.

(** A loop of conditional assignments keeps the keys distinct. *)
Lemma NoDup_keys_fold {A} (f : dict V -> A -> dict V) (l : list A) d :
  (forall m a, NoDup (keys m) -> NoDup (keys (f m a))) ->
  NoDup (keys d) -> NoDup (keys (fold_left f l d)).
Proof.
  intros Hf. revert d. induction l as [|a l IH]; simpl; auto.
Qed.
End Dict.

End PyFacts.

(* ================================================================== *)
(** ** Facts about the methods' effect on [self.stats] *)
(* ================================================================== *)

Module Effects.
Import Py World Ingestion Statements.

Lemma bump_0 s : bump 0 s = s.
Proof. destruct s; unfold bump; simpl. f_equal. lia. Qed.

Lemma bump_bump n m s : bump m (bump n s) = bump (n + m) s.
Proof. unfold bump; simpl. f_equal. lia. Qed.

Section Outcome.
Context {A B : Type}.

Lemma outcome_ret (a : A) : outcome (ret a) (Ok a) 0.
Proof. intros s. unfold ret. now rewrite bump_0. Qed.

Lemma outcome_raise (e : exn) : outcome (@raise A e) (Raise e) 0.
Proof. intros s. unfold raise. now rewrite bump_0. Qed.

Lemma outcome_lift (r : result A) : outcome (lift r) r 0.
Proof. intros s. unfold lift. now rewrite bump_0. Qed.

Lemma outcome_bind_ok (m : M A) (f : A -> M B) a n r n' :
  outcome m (Ok a) n -> outcome (f a) r n' -> outcome (bind m f) r (n + n').
Proof.
  intros Hm Hf s. unfold bind. rewrite Hm, Hf. now rewrite bump_bump.
Qed.

Lemma outcome_bind_raise (m : M A) (f : A -> M B) e n :
  outcome m (Raise e) n -> outcome (bind m f) (Raise e) n.
Proof. intros Hm s. unfold bind. now rewrite Hm. Qed.

Lemma outcome_try_ok (m : M A) h a n :
  outcome m (Ok a) n -> outcome (try_except m h) (Ok a) n.
Proof. intros Hm s. unfold try_except. now rewrite Hm. Qed.

Lemma outcome_try_raise (m : M A) h e n r n' :
  outcome m (Raise e) n -> outcome (h e) r n' ->
  outcome (try_except m h) r (n + n').
Proof.
  intros Hm Hh s. unfold try_except. rewrite Hm, Hh. now rewrite bump_bump.
Qed.
End Outcome.

Lemma outcome_add_documents n : outcome (add_documents_ingested n) (Ok tt) n.
Proof. intros s. reflexivity. Qed.

Lemma outcome_unique {A} (m : M A) r n r' n' :
  outcome m r n -> outcome m r' n' -> r = r' /\ n = n'.
Proof.
  intros H H'. specialize (H init_stats). specialize (H' init_stats).
  rewrite H in H'. split; [congruence|].
  apply (f_equal (fun x => documents_ingested (snd x))) in H'.
  simpl in H'. lia.
Qed.

Lemma uniform_ret {A} (a : A) : uniform (ret a).
Proof. eexists _, _. apply outcome_ret. Qed.

Lemma uniform_raise {A} e : uniform (@raise A e).
Proof. eexists _, _. apply outcome_raise. Qed.

Lemma uniform_lift {A} (r : result A) : uniform (lift r).
Proof. eexists _, _. apply outcome_lift. Qed.

Lemma uniform_add_documents n : uniform (add_documents_ingested n).
Proof. eexists _, _. apply outcome_add_documents. Qed.

Lemma uniform_bind {A B} (m : M A) (f : A -> M B) :
  uniform m -> (forall a, uniform (f a)) -> uniform (bind m f).
Proof.
  intros (r & n & Hm) Hf. destruct r as [a|e].
  - destruct (Hf a) as (r' & n' & Hfa). eexists _, _.
    eapply outcome_bind_ok; eassumption.
  - eexists _, _. eapply outcome_bind_raise; eassumption.
Qed.

Lemma uniform_try_except {A} (m : M A) h :
  uniform m -> (forall e, uniform (h e)) -> uniform (try_except m h).
Proof.
  intros (r & n & Hm) Hh. destruct r as [a|e].
  - eexists _, _. eapply outcome_try_ok; eassumption.
  - destruct (Hh e) as (r' & n' & Hhe). eexists _, _.
    eapply outcome_try_raise; eassumption.
Qed.

Lemma uniform_for_each {A B} (l : list A) (body : B -> A -> M B) acc :
  (forall b a, uniform (body b a)) -> uniform (for_each l body acc).
Proof.
  intros Hbody. revert acc. induction l as [|x l IH]; intros acc; simpl.
  - apply uniform_ret.
  - apply uniform_bind; auto.
Qed.

Ltac uniform_step :=
  first
    [ apply uniform_ret | apply uniform_raise | apply uniform_lift
    | apply uniform_add_documents
    | apply uniform_try_except | apply uniform_bind
    | apply uniform_for_each ].

Ltac uniform := repeat (intros; uniform_step).

Lemma uniform_getitem {V} (d : dict V) k : uniform (getitem d k).
Proof. unfold getitem. destruct (dict_get d k); uniform. Qed.

Lemma uniform_text root p : uniform (_ingest_text_file root p).
Proof. unfold _ingest_text_file. uniform. Qed.

Lemma uniform_content_column df : uniform (_identify_content_column df).
Proof.
  unfold _identify_content_column.
  destruct (find _ _); [uniform|].
  destruct (avg_lengths df); [|uniform].
  destruct (columns df); uniform.
Qed.

Lemma uniform_csv root p : uniform (_ingest_csv_file root p).
Proof.
  unfold _ingest_csv_file. uniform. apply uniform_content_column.
Qed.

Lemma uniform_json_list_body p docs item : uniform (json_list_body p docs item).
Proof.
  unfold json_list_body. destruct item; uniform.
  destruct (field_found _); uniform. apply uniform_getitem.
Qed.

Lemma uniform_json_dict_body p docs kv : uniform (json_dict_body p docs kv).
Proof.
  unfold json_dict_body. destruct (snd kv); uniform.
  - destruct (100 <? _); uniform.
  - destruct (field_found _); uniform. apply uniform_getitem.
Qed.

Lemma uniform_json root p : uniform (_ingest_json_file root p).
Proof.
  unfold _ingest_json_file. uniform.
  - destruct a; uniform.
    + apply uniform_json_list_body.
    + apply uniform_json_dict_body.
  - destruct a0; uniform.
Qed.

Lemma uniform_pdf root p : uniform (_ingest_pdf_file root p).
Proof. unfold _ingest_pdf_file. uniform. Qed.

Lemma uniform_ingest_file root p : uniform (ingest_file root p).
Proof.
  unfold ingest_file.
  destruct (negb _); [uniform|].
  destruct (String.eqb _ ".txt"); [apply uniform_text|].
  destruct (String.eqb _ ".csv"); [apply uniform_csv|].
  destruct (String.eqb _ ".json"); [apply uniform_json|].
  destruct (String.eqb _ ".pdf"); [apply uniform_pdf|].
  uniform.
Qed.

End Effects.

(* ================================================================== *)
(** ** The accumulator: frame and determinism *)
(* ================================================================== *)

Module Accumulator.
Import Py World Ingestion Statements Effects.

Lemma uniform_preserves {A} (m : M A) :
  uniform m -> preserves_file_counters m.
Proof. intros (r & n & H) s. rewrite H. simpl. auto. Qed.

Lemma uniform_result {A} (m : M A) s1 s2 :
  uniform m -> fst (m s1) = fst (m s2).
Proof. intros (r & n & H). now rewrite !H. Qed.

(** A [try] whose handler returns never raises. *)
Lemma try_except_returns {A} (m : M A) (h : exn -> A) :
  uniform m ->
  exists a n, outcome (try_except m (fun e => ret (h e))) (Ok a) n.
Proof.
  intros (r & n & H). destruct r as [a|e].
  - exists a, n. now apply outcome_try_ok.
  - exists (h e), (n + 0). eapply outcome_try_raise; [eassumption|apply outcome_ret].
Qed.

Lemma ingest_file_absent root p :
  exists_ (resolve root p) = false ->
  outcome (ingest_file root p)
    (Raise (Exn FileNotFoundError ("File not found: " ++ str_path p)%string)) 0.
Proof.
  intros H. unfold ingest_file. rewrite H. simpl. apply outcome_raise.
Qed.

(** On a path that exists, every branch of the dispatcher returns. *)
Lemma ingest_file_present root p :
  exists_ (resolve root p) = true ->
  exists r n, outcome (ingest_file root p) (Ok r) n.
Proof.
  intros H. unfold ingest_file. rewrite H. simpl.
  destruct (String.eqb _ ".txt").
  { apply try_except_returns. unfold bind. uniform. }
  destruct (String.eqb _ ".csv").
  { apply try_except_returns. uniform. apply uniform_content_column. }
  destruct (String.eqb _ ".json").
  { apply try_except_returns. uniform.
    - destruct a; uniform;
        [apply uniform_json_list_body|apply uniform_json_dict_body].
    - destruct a0; uniform. }
  destruct (String.eqb _ ".pdf").
  { apply try_except_returns. uniform. }
  eexists _, _. apply outcome_ret.
Qed.

(** One turn of the directory loop: the file counter moves when
    [ingest_file] returns, whatever dict it returns; the error counter
    moves when it raises. *)
Lemma directory_loop_body_present root p s :
  exists_ (resolve root p) = true ->
  exists n,
    directory_loop_body root p s =
    (Ok tt, {| files_processed := files_processed s + 1;
               documents_ingested := documents_ingested s + n;
               errors := errors s |}).
Proof.
  intros H. destruct (ingest_file_present root p H) as (r & n & Hr).
  exists n. unfold directory_loop_body, try_except, bind. now rewrite Hr.
Qed.

Lemma directory_loop_body_absent root p s :
  exists_ (resolve root p) = false ->
  directory_loop_body root p s =
  (Ok tt, {| files_processed := files_processed s;
             documents_ingested := documents_ingested s;
             errors := errors s + 1 |}).
Proof.
  intros H. unfold directory_loop_body, try_except, bind.
  rewrite (ingest_file_absent root p H). unfold incr_errors, bump. simpl.
  do 2 f_equal. lia.
Qed.

(** C10.  Frame property of the accumulator: [ingest_file] and each of
    the four extractors leave [files_processed] and [errors] untouched,
    whether they return or raise; one turn of the loop of
    [ingest_directory] is where those two counters move, exactly one of
    them by one. *)
Theorem ingest_file_frame (root : node) (file_path : path) :
  preserves_file_counters (ingest_file root file_path)
  /\ preserves_file_counters (_ingest_text_file root file_path)
  /\ preserves_file_counters (_ingest_csv_file root file_path)
  /\ preserves_file_counters (_ingest_json_file root file_path)
  /\ preserves_file_counters (_ingest_pdf_file root file_path)
  /\ forall s,
       let s' := snd (directory_loop_body root file_path s) in
       (files_processed s' = files_processed s + 1 /\ errors s' = errors s)
       \/ (files_processed s' = files_processed s /\ errors s' = errors s + 1).
Proof.
  repeat split.
  1-10: apply uniform_preserves;
    auto using uniform_ingest_file, uniform_text, uniform_csv, uniform_json,
               uniform_pdf.
  intros s. destruct (exists_ (resolve root file_path)) eqn:E.
  - destruct (directory_loop_body_present root file_path s E) as (n & ->).
    left. simpl. auto.
  - rewrite (directory_loop_body_absent root file_path s E).
    right. simpl. auto.
Qed.

(** C9.  Ingestion is deterministic per file: what [ingest_file] gives
    for a file (the returned dict with its documents, content and
    metadata, or the exception) and the number of documents it counts are
    fixed by the file alone, whatever accumulator the call starts from; so
    two runs on the unchanged file, each with a fresh accumulator, give
    equal documents. *)
Theorem ingest_file_deterministic (root : node) (file_path : path) :
  exists r n,
    (forall s, fst (ingest_file root file_path s) = r)
    /\ (forall s, snd (ingest_file root file_path s) = bump n s)
    /\ (forall s1 s2,
          returned_documents (fst (ingest_file root file_path s1))
          = returned_documents (fst (ingest_file root file_path s2)))
    /\ ingest_file root file_path init_stats = (r, bump n init_stats).
Proof.
  destruct (uniform_ingest_file root file_path) as (r & n & H).
  exists r, n. repeat split; intros; now rewrite !H.
Qed.

End Accumulator.

(* ================================================================== *)
(** ** Batch ingestion and existence checks *)
(* ================================================================== *)

Module Batch.
Import Py World Ingestion Statements Effects Accumulator.

(** The loop of [ingest_directory] over any list of files: every path
    that exists is counted as processed, whatever dict [ingest_file]
    returned for it; only a path that does not exist is counted as an
    error. *)
Lemma directory_loop_tally root files : forall s,
  exists n,
    for_each files (fun _ file_path => directory_loop_body root file_path) tt s
    = (Ok tt,
       {| files_processed :=
            files_processed s
            + List.length (filter (fun f => exists_ (resolve root f)) files);
          documents_ingested := documents_ingested s + n;
          errors :=
            errors s
            + List.length
                (filter (fun f => negb (exists_ (resolve root f))) files) |}).
Proof.
  induction files as [|f files IH]; intros s.
  - exists 0. simpl. unfold ret. destruct s; simpl. do 2 f_equal; lia.
  - simpl. unfold bind.
    destruct (exists_ (resolve root f)) eqn:E; simpl.
    + destruct (directory_loop_body_present root f s E) as (n1 & ->).
      destruct (IH {| files_processed := files_processed s + 1;
                      documents_ingested := documents_ingested s + n1;
                      errors := errors s |}) as (n2 & ->).
      exists (n1 + n2). simpl. do 2 f_equal; lia.
    + rewrite (directory_loop_body_absent root f s E).
      destruct (IH {| files_processed := files_processed s;
                      documents_ingested := documents_ingested s;
                      errors := errors s + 1 |}) as (n2 & ->).
      exists n2. simpl. do 2 f_equal; lia.
Qed.

Lemma ingest_directory_tally root directory_path file_extension s :
  is_dir (resolve root directory_path) = true ->
  plain_filter file_extension ->
  let files := listing root directory_path file_extension in
  exists n,
    fst (ingest_directory root directory_path file_extension s)
    = Ok {| files_processed :=
              files_processed s
              + List.length (filter (fun f => exists_ (resolve root f)) files);
            documents_ingested := documents_ingested s + n;
            errors :=
              errors s
              + List.length
                  (filter (fun f => negb (exists_ (resolve root f))) files) |}.
Proof.
  intros Hdir _ files.
  destruct (directory_loop_tally root files s) as (n & Hloop).
  exists n. unfold ingest_directory, try_except, bind.
  assert (exists_ (resolve root directory_path) = true) as He
      by (destruct (resolve root directory_path); auto; discriminate).
  rewrite He, Hdir. simpl. fold files. rewrite Hloop. reflexivity.
Qed.

(** C1.  The batch of the specification, run on the code: a directory
    with one file of an unsupported format and one text file.  Both calls
    of [ingest_file] return (the first a dict without success), so both
    files are counted as processed and no error is counted. *)
Theorem batch_unsupported_and_text_tally :
  listing Samples.batch_root ["data"] None
  = [["data"; "scan.xyz"]; ["data"; "note.txt"]]
  /\ fst (ingest_file Samples.batch_root ["data"; "scan.xyz"] init_stats)
     = Ok (Failure "Unsupported file format")
  /\ ingest_directory Samples.batch_root ["data"] None init_stats
     = (Ok {| files_processed := 2; documents_ingested := 1; errors := 0 |},
        {| files_processed := 2; documents_ingested := 1; errors := 0 |}).
Proof. repeat split. Qed.

(** A path that does not resolve to a directory: the call returns the
    accumulator as it was, exactly as it does on an empty directory. *)
Lemma missing_directory_returns_stats :
  exists_ (resolve Samples.batch_root ["missing"]) = false
  /\ ~ (exists e,
         fst (ingest_directory Samples.batch_root ["missing"] None init_stats)
         = Raise e)
  /\ ingest_directory Samples.batch_root ["missing"] None init_stats
     = (Ok init_stats, init_stats)
  /\ ingest_directory Samples.batch_root ["missing"] None init_stats
     = ingest_directory Samples.batch_root ["empty"] None init_stats.
Proof.
  repeat split. intros [e H]. discriminate H.
Qed.

(** C2, as the code has it.  [ingest_directory] on a path that does not
    exist or is not a directory raises nothing: it catches its own
    [ValueError] and returns the accumulator unchanged, no file having
    been ingested.  [ingest_file] on a path that does not exist raises
    [FileNotFoundError] and leaves the accumulator unchanged, whatever the
    suffix of the path: no extractor has run. *)
Theorem existence_violations
    (root : node) (directory_path file_path : path)
    (file_extension : option string) (s : Stats) :
  exists_ (resolve root directory_path) = false
  \/ is_dir (resolve root directory_path) = false ->
  exists_ (resolve root file_path) = false ->
  ingest_directory root directory_path file_extension s = (Ok s, s)
  /\ ingest_file root file_path s
     = (Raise (Exn FileNotFoundError
                 ("File not found: " ++ str_path file_path)%string), s).
Proof.
  intros Hdir Hfile. split.
  - unfold ingest_directory, try_except, bind.
    assert (negb (exists_ (resolve root directory_path))
            || negb (is_dir (resolve root directory_path)) = true) as ->.
    { destruct Hdir as [-> | ->]; simpl; auto using orb_true_r. }
    reflexivity.
  - rewrite (ingest_file_absent root file_path Hfile). now rewrite bump_0.
Qed.

Lemma existence_violations_witness :
  ingest_directory Samples.batch_root ["data"; "note.txt"] (Some ".txt") init_stats
  = (Ok init_stats, init_stats)
  /\ ingest_file Samples.batch_root ["data"; "gone.txt"] init_stats
     = (Raise (Exn FileNotFoundError "File not found: data/gone.txt"), init_stats).
Proof.
  apply (existence_violations Samples.batch_root ["data"; "note.txt"]
           ["data"; "gone.txt"] (Some ".txt") init_stats).
  - right. reflexivity.
  - reflexivity.
Defined.

End Batch.

(* ================================================================== *)
(** ** Facts about "first match" and "first greatest" *)
(* ================================================================== *)

Module Selection.
Import Py PyFacts Statements.

Lemma fold_left_pointwise {A B} (f g : A -> B -> A) l a :
  (forall x y, f x y = g x y) -> fold_left f l a = fold_left g l a.
Proof.
  intros H. revert a. induction l as [|y l IH]; intros a; simpl; [reflexivity|].
  now rewrite H, IH.
Qed.

Section Find.
Context {A : Type} (P : A -> bool).

Lemma find_first (pre post : list A) (x : A) :
  P x = true -> (forall y, In y pre -> P y = false) ->
  find P (pre ++ x :: post) = Some x.
Proof.
  intros Hx. induction pre as [|y pre IH]; intros Hpre; simpl.
  - now rewrite Hx.
  - rewrite (Hpre y (or_introl eq_refl)). apply IH.
    intros z Hz. apply Hpre. now right.
Qed.

Lemma find_nothing (l : list A) :
  (forall y, In y l -> P y = false) -> find P l = None.
Proof.
  induction l as [|y l IH]; intros H; simpl; [reflexivity|].
  rewrite (H y (or_introl eq_refl)). apply IH.
  intros z Hz. apply H. now right.
Qed.
End Find.

Section MaxFrom.
Context {A K : Type} (key : A -> K) (gt : K -> K -> bool).

Lemma max_from_In best l : In (max_from key gt best l) (best :: l).
Proof.
  revert best. induction l as [|x l IH]; intros best; simpl.
  - now left.
  - specialize (IH (if gt (key x) (key best) then x else best)).
    destruct IH as [H|H].
    + rewrite <- H. destruct (gt (key x) (key best)); auto.
    + auto.
Qed.

Lemma max_from_app best l1 l2 :
  max_from key gt best (l1 ++ l2) = max_from key gt (max_from key gt best l1) l2.
Proof.
  revert best. induction l1 as [|x l1 IH]; intros best; simpl; auto.
Qed.

Lemma max_from_stays x l :
  (forall y, In y l -> gt (key y) (key x) = false) ->
  max_from key gt x l = x.
Proof.
  induction l as [|y l IH]; intros H; simpl; [reflexivity|].
  rewrite (H y (or_introl eq_refl)). apply IH.
  intros z Hz. apply H. now right.
Qed.

(** The item [max] returns: the first one that is strictly greater
    than everything before it and that nothing after it exceeds. *)
Lemma py_max_first_greatest pre x post :
  (forall y, In y pre -> gt (key x) (key y) = true) ->
  (forall y, In y post -> gt (key y) (key x) = false) ->
  py_max key gt (pre ++ x :: post) = Some x.
Proof.
  intros Hpre Hpost. destruct pre as [|b pre]; simpl.
  - now rewrite max_from_stays.
  - rewrite max_from_app. simpl.
    rewrite (Hpre (max_from key gt b pre)) by apply max_from_In.
    now rewrite max_from_stays.
Qed.

Lemma py_max_In l x : py_max key gt l = Some x -> In x l.
Proof.
  destruct l as [|b l]; simpl; [discriminate|].
  intros [= <-]. apply max_from_In.
Qed.
End MaxFrom.

(** With distinct keys every assignment of a collecting loop appends. *)
Section Collect.
Context {A V : Type} (kf : A -> string) (g : A -> option V).

Lemma dict_set_fresh (d : dict V) k v :
  ~ In k (keys d) -> dict_set d k v = d ++ [(k, v)].
Proof.
  induction d as [|[k' v'] d IH]; simpl; intros H; [reflexivity|].
  destruct (String.eqb k k') eqn:E.
  - apply String.eqb_eq in E. exfalso. apply H. left. now subst.
  - f_equal. apply IH. intros H'. apply H. now right.
Qed.

Lemma keys_flat_map_kept l k :
  In k (keys (flat_map (kept kf g) l)) -> In k (map kf l).
Proof.
  induction l as [|a l IH]; simpl; [tauto|].
  unfold keys. rewrite map_app, in_app_iff. intros [H|H].
  - left. unfold kept in H. destruct (g a); simpl in H; tauto.
  - right. apply IH. exact H.
Qed.

Lemma collect_distinct l acc :
  NoDup (map kf l) ->
  (forall k, In k (keys acc) -> ~ In k (map kf l)) ->
  fold_left (collect_step kf g) l acc = acc ++ flat_map (kept kf g) l.
Proof.
  revert acc. induction l as [|a l IH]; intros acc Hnd Hacc; simpl.
  - now rewrite app_nil_r.
  - inversion Hnd as [|? ? Ha Hnd']; subst.
    unfold collect_step at 2, kept at 1. destruct (g a) as [v|].
    + rewrite dict_set_fresh.
      2:{ intros H. apply (Hacc _ H). now left. }
      rewrite IH; auto.
      * now rewrite <- app_assoc.
      * intros k Hk. unfold keys in Hk. rewrite map_app, in_app_iff in Hk.
        destruct Hk as [Hk|[<-|[]]]; [|exact Ha].
        intros H. apply (Hacc _ Hk). now right.
    + apply IH; auto. intros k Hk H. apply (Hacc _ Hk). now right.
Qed.

(** A key that every assignment to it gives the same value holds that
    value once it has been assigned. *)
Lemma collect_get_same l acc k v :
  (forall b, In b l -> kf b = k -> g b = Some v) ->
  dict_get acc k = Some v \/ (exists b, In b l /\ kf b = k) ->
  dict_get (fold_left (collect_step kf g) l acc) k = Some v.
Proof.
  revert acc. induction l as [|a l IH]; intros acc Hall Hsome; simpl.
  - destruct Hsome as [H|(b & [] & _)]. exact H.
  - apply IH; [intros b Hb; apply Hall; now right|].
    unfold collect_step. destruct (string_dec (kf a) k) as [E|E].
    + rewrite (Hall a (or_introl eq_refl) E). left.
      rewrite E. apply dict_get_set_same.
    + assert (dict_get (match g a with
                        | Some v0 => dict_set acc (kf a) v0
                        | None => acc
                        end) k = dict_get acc k) as ->.
      { destruct (g a); [|reflexivity].
        apply dict_get_set_other. congruence. }
      destruct Hsome as [H|(b & [<-|Hb] & Hk)]; [now left|contradiction|].
      right. now exists b.
Qed.

(** The last assignment to a key wins. *)
Lemma collect_get_last l1 a l2 acc v :
  g a = Some v ->
  (forall b, In b l2 -> kf b = kf a -> g b = None) ->
  dict_get (fold_left (collect_step kf g) (l1 ++ a :: l2) acc) (kf a) = Some v.
Proof.
  intros Ha Hl2. rewrite fold_left_app. simpl.
  set (m := fold_left (collect_step kf g) l1 acc).
  unfold collect_step at 2. rewrite Ha.
  assert (forall m0, dict_get m0 (kf a) = Some v ->
                     dict_get (fold_left (collect_step kf g) l2 m0) (kf a) = Some v)
    as Hkeep.
  { clear m. induction l2 as [|b l2 IH]; intros m0 Hm0; simpl; [exact Hm0|].
    apply IH; [intros c Hc; apply Hl2; now right|].
    unfold collect_step. destruct (string_dec (kf b) (kf a)) as [E|E].
    - now rewrite (Hl2 b (or_introl eq_refl) E).
    - destruct (g b); [|exact Hm0].
      rewrite dict_get_set_other by congruence. exact Hm0. }
  apply Hkeep. apply dict_get_set_same.
Qed.

(** A key that no item of the loop assigns keeps what it had. *)
Lemma collect_get_untouched l acc k :
  (forall b, In b l -> kf b = k -> g b = None) ->
  dict_get (fold_left (collect_step kf g) l acc) k = dict_get acc k.
Proof.
  revert acc. induction l as [|a l IH]; intros acc H; simpl; [reflexivity|].
  rewrite IH by (intros b Hb; apply H; now right).
  unfold collect_step. destruct (string_dec (kf a) k) as [E|E].
  - now rewrite (H a (or_introl eq_refl) E).
  - destruct (g a); [|reflexivity]. apply dict_get_set_other. congruence.
Qed.

Lemma collect_keys_kept l acc k :
  In k (keys (fold_left (collect_step kf g) l acc)) ->
  In k (keys acc) \/ exists a v, In a l /\ kf a = k /\ g a = Some v.
Proof.
  revert acc. induction l as [|a l IH]; intros acc; simpl; [tauto|].
  intros H. apply IH in H. destruct H as [H|(b & v & Hb & Hk & Hg)].
  - unfold collect_step in H. destruct (g a) as [v|] eqn:E; [|tauto].
    apply In_keys_dict_set in H. destruct H as [->|H]; [|tauto].
    right. exists a, v. auto.
  - right. exists b, v. auto.
Qed.

Lemma collect_keeps_keys l acc k :
  In k (keys acc) -> In k (keys (fold_left (collect_step kf g) l acc)).
Proof.
  revert acc. induction l as [|a l IH]; intros acc H; simpl; [exact H|].
  apply IH. unfold collect_step. destruct (g a); [|exact H].
  apply In_keys_dict_set. now right.
Qed.

Lemma collect_NoDup l acc :
  NoDup (keys acc) -> NoDup (keys (fold_left (collect_step kf g) l acc)).
Proof.
  apply NoDup_keys_fold. intros m a Hm. unfold collect_step.
  destruct (g a); [now apply NoDup_keys_dict_set|exact Hm].
Qed.

Lemma collect_keys l acc k :
  In k (keys (fold_left (collect_step kf g) l acc)) ->
  In k (keys acc) \/ In k (map kf l).
Proof.
  revert acc. induction l as [|a l IH]; intros acc; simpl; [tauto|].
  intros H. apply IH in H. destruct H as [H|H]; [|tauto].
  unfold collect_step in H. destruct (g a); [|tauto].
  apply In_keys_dict_set in H. destruct H as [->|H]; tauto.
Qed.
End Collect.

End Selection.


(* ================================================================== *)
(** ** The field-variant content locator *)
(* ================================================================== *)

Module FieldLocator.
Import Py World Ingestion Statements PyFacts Effects Selection.

Lemma text_fields_collect item :
  text_fields item = fold_left (collect_step fst long_text) item [].
Proof.
  unfold text_fields. apply fold_left_pointwise. intros acc [k v].
  unfold collect_step, long_text. simpl.
  destruct v; try reflexivity. now destruct (50 <? String.length s).
Qed.

Lemma text_fields_distinct item :
  NoDup (keys item) -> text_fields item = flat_map (kept fst long_text) item.
Proof.
  intros Hnd. rewrite text_fields_collect.
  now rewrite collect_distinct by (auto; intros k []).
Qed.

Lemma kept_long_text_In l y :
  In y (flat_map (kept fst long_text) l) ->
  exists k s, In (k, VStr s) l /\ y = (k, String.length s) /\ 50 < String.length s.
Proof.
  rewrite in_flat_map. intros ([k v] & Hin & Hy).
  unfold kept, long_text in Hy. simpl in Hy.
  destruct v; try contradiction.
  destruct (50 <? String.length s) eqn:E; [|contradiction].
  destruct Hy as [<-|[]]. exists k, s. apply Nat.ltb_lt in E. auto.
Qed.

Lemma named_text_iff item name :
  dict_mem item name
  && match dict_get item name with Some v => is_str v | None => false end
  = true
  <-> has_text item name.
Proof.
  unfold has_text, dict_mem. destruct (dict_get item name) as [v|]; simpl.
  - destruct v; simpl; split; try discriminate; try (intros [? [=]]); eauto.
  - split; [discriminate|]. intros [? [=]].
Qed.

Lemma named_text_false item name :
  ~ has_text item name ->
  dict_mem item name
  && match dict_get item name with Some v => is_str v | None => false end
  = false.
Proof.
  intros H. apply not_true_is_false. intros H'. apply H. now apply named_text_iff.
Qed.

(** The heuristic branch, read through [max]. *)
Lemma locator_heuristic item :
  (forall name, In name content_field_names -> ~ has_text item name) ->
  _identify_json_content_field item
  = option_map fst (py_max snd nat_gt (text_fields item)).
Proof.
  intros H. unfold _identify_json_content_field.
  rewrite find_nothing.
  - now destruct (text_fields item).
  - intros name Hin. apply named_text_false. auto.
Qed.

(** The field the locator names is a key of the object. *)
Lemma located_field_present item f :
  _identify_json_content_field item = Some f -> In f (keys item).
Proof.
  unfold _identify_json_content_field.
  destruct (find _ content_field_names) as [name|] eqn:E.
  - intros [= <-]. apply find_some in E. destruct E as [_ E].
    apply andb_prop in E. destruct E as [E _]. now apply dict_mem_keys.
  - destruct (text_fields item) as [|first rest] eqn:T; [discriminate|].
    intros [= <-].
    pose proof (max_from_In snd nat_gt first rest) as Hin.
    rewrite <- T in Hin. rewrite text_fields_collect in Hin.
    assert (In (fst (max_from snd nat_gt first rest))
               (keys (fold_left (collect_step fst long_text) item []))) as Hk.
    { unfold keys. now apply in_map. }
    apply collect_keys in Hk. destruct Hk as [[]|Hk]. exact Hk.
Qed.

Lemma getitem_located item f (s : Stats) :
  _identify_json_content_field item = Some f ->
  exists c, dict_get item f = Some c /\ getitem item f s = (Ok c, s).
Proof.
  intros H. apply located_field_present in H. apply dict_mem_keys in H.
  unfold dict_mem in H. unfold getitem.
  destruct (dict_get item f) as [c|]; [|discriminate]. now exists c.
Qed.

(** C6.  The field-variant content locator on an object (a dict, so with
    distinct keys): the first name of the priority list whose value is a
    string wins; failing that, the first of the longest string-valued
    fields among those longer than 50 characters; failing that, no content
    field, and then both callers skip the object, leaving documents and
    counters as they were and raising nothing.  The object
    [{"id": 1, "note": "short"}] has no content field. *)
Theorem field_locator_selects (item : dict value) :
  NoDup (keys item) ->
  (forall pre name post,
      content_field_names = pre ++ name :: post ->
      has_text item name ->
      (forall n, In n pre -> ~ has_text item n) ->
      _identify_json_content_field item = Some name)
  /\ (forall pre k s post,
        (forall n, In n content_field_names -> ~ has_text item n) ->
        item = pre ++ (k, VStr s) :: post ->
        50 < String.length s ->
        (forall k' s', In (k', VStr s') pre ->
                       String.length s' < String.length s) ->
        (forall k' s', In (k', VStr s') post ->
                       String.length s' <= String.length s) ->
        _identify_json_content_field item = Some k)
  /\ ((forall n, In n content_field_names -> ~ has_text item n) ->
      (forall k s, In (k, VStr s) item -> String.length s <= 50) ->
      _identify_json_content_field item = None)
  /\ (_identify_json_content_field item = None ->
      forall file_path documents key s,
        json_list_body file_path documents (VDict item) s = (Ok documents, s)
        /\ json_dict_body file_path documents (key, VDict item) s
           = (Ok documents, s))
  /\ _identify_json_content_field Samples.short_note = None.
Proof.
  intros Hnd. repeat apply conj.
  - intros pre name post Hsplit Hname Hpre.
    unfold _identify_json_content_field. rewrite Hsplit.
    rewrite find_first; [reflexivity| |].
    + now apply named_text_iff.
    + intros n Hn. apply named_text_false. auto.
  - intros pre k s post Hnone Hsplit Hlong Hpre Hpost.
    rewrite locator_heuristic by assumption.
    rewrite text_fields_distinct by assumption.
    rewrite Hsplit, flat_map_app. simpl.
    unfold kept at 2, long_text at 2. simpl.
    apply Nat.ltb_lt in Hlong as Hlong'. rewrite Hlong'. simpl.
    rewrite (py_max_first_greatest snd nat_gt _ (k, String.length s));
      [reflexivity| |].
    + intros y Hy. apply kept_long_text_In in Hy.
      destruct Hy as (k' & s' & Hin & -> & _). simpl.
      apply Nat.ltb_lt. eauto.
    + intros y Hy. apply kept_long_text_In in Hy.
      destruct Hy as (k' & s' & Hin & -> & _). simpl.
      apply Nat.ltb_ge. eauto.
  - intros Hnone Hshort.
    rewrite locator_heuristic by assumption.
    rewrite text_fields_distinct by assumption.
    destruct (flat_map (kept fst long_text) item) as [|y l] eqn:E; [reflexivity|].
    assert (In y (flat_map (kept fst long_text) item)) as Hy
        by (rewrite E; now left).
    apply kept_long_text_In in Hy. destruct Hy as (k & s & Hin & _ & Hlen).
    apply Hshort in Hin. lia.
  - intros Hnone file_path documents key s.
    unfold json_list_body, json_dict_body. simpl. rewrite Hnone. simpl. auto.
  - reflexivity.
Qed.

Lemma field_locator_selects_witness :
  _identify_json_content_field Samples.long_fields = Some "details".
Proof.
  destruct (field_locator_selects Samples.long_fields) as (_ & H & _).
  - repeat constructor; simpl; intuition discriminate.
  - apply (H [("id", VInt 1%Z); ("summary", VStr (Samples.repeat_char "s" 60))]
             "details" (Samples.repeat_char "d" 80)
             [("remarks", VStr (Samples.repeat_char "r" 80))]).
    + intros n Hn [x Hx]. simpl in Hn.
      repeat (destruct Hn as [<-|Hn]; [discriminate Hx|]). exact Hn.
    + reflexivity.
    + vm_compute. lia.
    + intros k' s' Hin. simpl in Hin.
      destruct Hin as [Hin|[Hin|[]]]; [discriminate Hin|].
      injection Hin as <- <-. vm_compute. lia.
    + intros k' s' Hin. simpl in Hin.
      destruct Hin as [Hin|[]]. injection Hin as <- <-. vm_compute. lia.
Defined.

End FieldLocator.

(* ================================================================== *)
(** ** Structured records: a single mapping *)
(* ================================================================== *)

Module JsonMapping.
Import Py World Ingestion Statements PyFacts Effects Selection FieldLocator.

(** A loop whose every turn appends what [g] makes of the item. *)
Lemma for_each_appends {A B} (g : A -> list B) (body : list B -> A -> M (list B)) l :
  (forall acc x s, body acc x s = (Ok (acc ++ g x), s)) ->
  forall acc s, for_each l body acc s = (Ok (acc ++ flat_map g l), s).
Proof.
  intros Hbody. induction l as [|x l IH]; intros acc s; simpl.
  - unfold ret. now rewrite app_nil_r.
  - unfold bind. rewrite Hbody, IH. now rewrite app_assoc.
Qed.

(** Both loops handle an object the same way, from the metadata each
    starts with. *)
Lemma nested_record_step (base : dict value) (item : dict value)
    (documents : list Document) (s : Stats) :
  match field_found (_identify_json_content_field item) with
  | Some content_field =>
      bind (getitem item content_field)
        (fun content =>
           ret (documents ++
                  [{| content := content;
                      metadata := json_metadata_loop item content_field base |}]))
  | None => ret documents
  end s
  = (Ok (documents ++ nested_record base item), s).
Proof.
  unfold nested_record, field_found.
  destruct (_identify_json_content_field item) as [f|] eqn:E.
  - destruct (nonempty f).
    + destruct (getitem_located item f s E) as (c & Hc & Hg).
      unfold bind. rewrite Hg, Hc. reflexivity.
    + unfold ret. now rewrite app_nil_r.
  - unfold ret. now rewrite app_nil_r.
Qed.

Lemma json_dict_body_appends file_path documents kv s :
  json_dict_body file_path documents kv s
  = (Ok (documents ++ mapping_documents file_path kv), s).
Proof.
  unfold json_dict_body, mapping_documents. destruct kv as [key v]. simpl.
  destruct v; try (unfold ret; now rewrite app_nil_r).
  - destruct (100 <? String.length s0); unfold ret; [reflexivity|].
    now rewrite app_nil_r.
  - apply nested_record_step.
Qed.

Lemma json_list_body_appends file_path documents item s :
  json_list_body file_path documents (VDict item) s
  = (Ok (documents
           ++ nested_record [("source", VStr (name file_path));
                             ("file_type", VStr "json")] item), s).
Proof. unfold json_list_body. apply nested_record_step. Qed.

End JsonMapping.

(* ================================================================== *)
(** ** The column-variant content locator *)
(* ================================================================== *)

Module ColumnLocator.
Import Py World Ingestion Statements PyFacts Effects Selection FieldLocator.

Lemma column_present df name :
  existsb (String.eqb name) (columns df) = true <-> In name (columns df).
Proof.
  rewrite existsb_exists. split.
  - intros (c & Hin & E). apply String.eqb_eq in E. now subst.
  - intros H. exists name. split; [assumption|apply String.eqb_refl].
Qed.

Lemma column_absent df name :
  ~ In name (columns df) -> existsb (String.eqb name) (columns df) = false.
Proof.
  intros H. apply not_true_is_false. intros H'. apply H. now apply column_present.
Qed.

Lemma avg_lengths_collect df :
  avg_lengths df
  = fold_left (collect_step (fun c => c) (object_mean df)) (columns df) [].
Proof.
  unfold avg_lengths. apply fold_left_pointwise. intros acc col.
  unfold collect_step, object_mean. now destruct (is_object df col).
Qed.

Lemma avg_lengths_distinct df :
  NoDup (columns df) ->
  avg_lengths df = flat_map (kept (fun c => c) (object_mean df)) (columns df).
Proof.
  intros Hnd. rewrite avg_lengths_collect.
  rewrite collect_distinct; [reflexivity| |intros k []].
  now rewrite map_id.
Qed.

Lemma kept_object_mean_In df l y :
  In y (flat_map (kept (fun c => c) (object_mean df)) l) ->
  In (fst y) l /\ text_like df (fst y) /\ snd y = mean_length df (fst y).
Proof.
  rewrite in_flat_map. intros (c & Hin & Hy).
  unfold kept, object_mean in Hy. unfold text_like.
  destruct (is_object df c) eqn:E; [|contradiction].
  destruct Hy as [<-|[]]. simpl. auto.
Qed.

(** The heuristic branch, read through [max]. *)
Lemma column_heuristic df s :
  (forall n, In n content_column_names -> ~ In n (columns df)) ->
  _identify_content_column df s
  = match py_max snd float_gt (avg_lengths df) with
    | Some kv => (Ok (fst kv), s)
    | None =>
        match columns df with
        | c :: _ => (Ok c, s)
        | [] => (Raise (Exn IndexError "index 0 is out of bounds for axis 0 with size 0"), s)
        end
    end.
Proof.
  intros H. unfold _identify_content_column. rewrite find_nothing.
  - destruct (avg_lengths df); [|reflexivity]. now destruct (columns df).
  - intros n Hn. apply column_absent. auto.
Qed.

(** With a common, positive number of rows the comparison of the means
    is the comparison of the summed lengths. *)
Lemma float_gt_same_count (l1 l2 : list nat) :
  List.length l1 = List.length l2 -> l1 <> [] ->
  float_gt (mean l1) (mean l2) = true
  <-> fold_left Nat.add l2 0 < fold_left Nat.add l1 0.
Proof.
  intros Hlen Hne.
  destruct l1 as [|a l1]; [congruence|]. destruct l2 as [|b l2]; [discriminate|].
  unfold mean, float_gt. rewrite <- Hlen.
  set (p := Pos.of_nat (List.length (a :: l1))).
  set (x := fold_left Nat.add (a :: l1) 0).
  set (y := fold_left Nat.add (b :: l2) 0).
  rewrite negb_true_iff, <- not_true_iff_false, Qle_bool_iff.
  unfold Qle. simpl. split.
  - intros H. apply Nat.nle_gt. intros Hle. apply H.
    apply Z.mul_le_mono_nonneg_r; lia.
  - intros H Hle. apply Z.mul_le_mono_pos_r in Hle; lia.
Qed.

(** C7.  The column-variant content locator on a schema with at least
    one column (column names are distinct, as [read_csv] makes them): the
    first name of the priority list that is a column name wins, wherever
    that column stands; failing that, the first of the text-like columns
    with the greatest mean string length; failing that, the first column.
    With columns id, title, description the locator gives description. *)
Theorem column_locator_selects (df : DataFrame) (s : Stats) :
  columns df <> [] ->
  NoDup (columns df) ->
  (forall pre name post,
      content_column_names = pre ++ name :: post ->
      In name (columns df) ->
      (forall n, In n pre -> ~ In n (columns df)) ->
      _identify_content_column df s = (Ok name, s))
  /\ (forall pre c post,
        (forall n, In n content_column_names -> ~ In n (columns df)) ->
        columns df = pre ++ c :: post ->
        text_like df c ->
        (forall c', In c' pre -> text_like df c' ->
                    float_gt (mean_length df c) (mean_length df c') = true) ->
        (forall c', In c' post -> text_like df c' ->
                    float_gt (mean_length df c') (mean_length df c) = false) ->
        _identify_content_column df s = (Ok c, s))
  /\ ((forall n, In n content_column_names -> ~ In n (columns df)) ->
      (forall c, In c (columns df) -> ~ text_like df c) ->
      _identify_content_column df s = (Ok (hd "" (columns df)), s))
  /\ _identify_content_column Samples.df_description_last s
     = (Ok "description", s).
Proof.
  intros Hne Hnd. split; [|split; [|split]].
  - intros pre name post Hsplit Hname Hpre.
    unfold _identify_content_column. rewrite Hsplit.
    rewrite find_first; [reflexivity| |].
    + now apply column_present.
    + intros n Hn. apply column_absent. auto.
  - intros pre c post Hnone Hsplit Htext Hpre Hpost.
    rewrite column_heuristic by assumption.
    rewrite avg_lengths_distinct by assumption.
    rewrite Hsplit, flat_map_app. simpl.
    unfold kept at 2, object_mean at 2. unfold text_like in Htext.
    rewrite Htext. simpl.
    rewrite (py_max_first_greatest snd float_gt _ (c, mean_length df c));
      [reflexivity| |].
    + intros y Hy. apply kept_object_mean_In in Hy.
      destruct Hy as (Hin & Hobj & ->). simpl. auto.
    + intros y Hy. apply kept_object_mean_In in Hy.
      destruct Hy as (Hin & Hobj & ->). simpl. auto.
  - intros Hnone Hnotext.
    rewrite column_heuristic by assumption.
    rewrite avg_lengths_distinct by assumption.
    destruct (flat_map _ (columns df)) as [|y l] eqn:E.
    + simpl. destruct (columns df); [congruence|reflexivity].
    + assert (In y (flat_map (kept (fun c => c) (object_mean df)) (columns df)))
        as Hy by (rewrite E; now left).
      apply kept_object_mean_In in Hy. destruct Hy as (Hin & Hobj & _).
      exfalso. exact (Hnotext _ Hin Hobj).
  - reflexivity.
Qed.

Lemma column_locator_selects_witness :
  _identify_content_column Samples.df_heuristic init_stats
  = (Ok "notes", init_stats).
Proof.
  destruct (column_locator_selects Samples.df_heuristic init_stats)
    as (_ & H & _).
  - discriminate.
  - repeat constructor; simpl; intuition discriminate.
  - apply (H ["id"; "title"] "notes" []).
    + intros n Hn Hin. simpl in Hn, Hin.
      repeat (destruct Hn as [<-|Hn];
              [repeat (destruct Hin as [Hin|Hin]; [discriminate Hin|]);
               exact Hin|]).
      exact Hn.
    + reflexivity.
    + reflexivity.
    + intros c' Hin Hobj. simpl in Hin.
      destruct Hin as [<-|[<-|[]]]; [discriminate Hobj|reflexivity].
    + intros c' [].
Defined.

End ColumnLocator.

(* ================================================================== *)
(** ** Tabular files *)
(* ================================================================== *)

Module Tabular.
Import Py World Ingestion Statements PyFacts Effects Selection FieldLocator
       JsonMapping ColumnLocator.

Lemma csv_row_metadata_collect file_path df text_column row :
  csv_row_metadata file_path df text_column row
  = fold_left (collect_step (fun c => c) (csv_kept df text_column row))
      (columns df)
      [("source", VStr (name file_path)); ("file_type", VStr "csv")].
Proof.
  unfold csv_row_metadata. apply fold_left_pointwise. intros acc col.
  unfold collect_step, csv_kept. simpl.
  now destruct (negb (String.eqb col text_column)
                && negb (isna (row_get (columns df) row col))).
Qed.

(** On a schema with a column the locator returns one of the columns. *)
Lemma content_column_total df :
  columns df <> [] ->
  exists c, In c (columns df)
            /\ forall s, _identify_content_column df s = (Ok c, s).
Proof.
  intros Hne. unfold _identify_content_column.
  destruct (find _ content_column_names) as [n|] eqn:E.
  - exists n. split; [|reflexivity].
    apply find_some in E. destruct E as [_ E]. now apply column_present.
  - destruct (avg_lengths df) as [|first rest] eqn:T.
    + destruct (columns df) as [|c l]; [congruence|].
      exists c. split; [now left|reflexivity].
    + exists (fst (max_from snd float_gt first rest)). split; [|reflexivity].
      pose proof (max_from_In snd float_gt first rest) as Hin.
      rewrite <- T, avg_lengths_collect in Hin.
      apply (in_map fst) in Hin. apply collect_keys in Hin.
      destruct Hin as [[]|Hin]. now rewrite map_id in Hin.
Qed.

Lemma flat_map_singleton {A B} (f : A -> B) l :
  flat_map (fun x => [f x]) l = map f l.
Proof. induction l as [|x l IH]; simpl; congruence. Qed.

(** The rows loop builds one document per row, in row order. *)
Lemma csv_rows_loop file_path df text_column s :
  for_each (df_rows df)
    (fun documents row =>
       ret (documents
              ++ [{| content :=
                       VStr (str_cell (row_get (columns df) row text_column));
                     metadata :=
                       csv_row_metadata file_path df text_column row |}]))
    [] s
  = (Ok (map (csv_document file_path df text_column) (df_rows df)), s).
Proof.
  rewrite (for_each_appends (fun row => [csv_document file_path df text_column row]))
    by reflexivity.
  simpl. now rewrite flat_map_singleton.
Qed.

Lemma ingest_csv_file_run root file_path df text_column s :
  pd_read_csv (resolve root file_path) = Ok df ->
  (forall s', _identify_content_column df s' = (Ok text_column, s')) ->
  _ingest_csv_file root file_path s
  = (Ok (SuccessDocuments
           (map (csv_document file_path df text_column) (df_rows df))),
     bump (List.length (df_rows df)) s).
Proof.
  intros Hread Hcol. unfold _ingest_csv_file, try_except, bind, lift.
  rewrite Hread, Hcol, csv_rows_loop. simpl. now rewrite length_map.
Qed.

Lemma pd_read_csv_exists n df : pd_read_csv n = Ok df -> exists_ n = true.
Proof. destruct n; simpl; try discriminate; reflexivity. Qed.

Lemma ingest_file_csv root file_path :
  exists_ (resolve root file_path) = true ->
  lower (suffix file_path) = ".csv" ->
  ingest_file root file_path = _ingest_csv_file root file_path.
Proof.
  intros He Hs. unfold ingest_file. rewrite He, Hs. reflexivity.
Qed.

Lemma csv_kept_Some df text_column row col v :
  csv_kept df text_column row col = Some v <->
  col <> text_column
  /\ isna (row_get (columns df) row col) = false
  /\ v = VStr (str_cell (row_get (columns df) row col)).
Proof.
  unfold csv_kept. simpl.
  destruct (String.eqb col text_column) eqn:E; simpl.
  - apply String.eqb_eq in E. split; [discriminate|]. intros (H & _). contradiction.
  - apply String.eqb_neq in E.
    destruct (isna (row_get (columns df) row col)); simpl.
    + split; [discriminate|]. intros (_ & H & _). discriminate.
    + split; [intros [= <-]; auto|]. intros (_ & _ & ->). reflexivity.
Qed.

(** What the metadata of a row's document holds. *)
Lemma csv_metadata_facts file_path df text_column row :
  let md := csv_row_metadata file_path df text_column row in
  NoDup (keys md)
  /\ dict_mem md "source" = true
  /\ dict_mem md "file_type" = true
  /\ (forall col,
        In col (columns df) -> col <> text_column ->
        isna (row_get (columns df) row col) = false ->
        dict_get md col = Some (VStr (str_cell (row_get (columns df) row col))))
  /\ (forall k,
        In k (keys md) ->
        k = "source" \/ k = "file_type"
        \/ (In k (columns df) /\ k <> text_column
            /\ isna (row_get (columns df) row k) = false)).
Proof.
  intros md. subst md. rewrite csv_row_metadata_collect.
  split; [|split; [|split; [|split]]].
  - apply collect_NoDup. repeat constructor; simpl; intuition discriminate.
  - apply dict_mem_keys, collect_keeps_keys. simpl. auto.
  - apply dict_mem_keys, collect_keeps_keys. simpl. auto.
  - intros col Hin Hne Hna. apply collect_get_same.
    + intros b _ ->. apply csv_kept_Some. auto.
    + right. now exists col.
  - intros k Hk. apply collect_keys_kept in Hk.
    destruct Hk as [Hk|(a & v & Hin & <- & Hg)].
    + simpl in Hk. intuition.
    + apply csv_kept_Some in Hg. destruct Hg as (Hne & Hna & _). auto.
Qed.

(** A table whose content column is named like a reserved key: the
    column is resolved as content and its name is still a metadata key. *)
Lemma content_column_named_source_is_a_key :
  let root := Dir [("wards.csv", Samples.csv_file Samples.df_only_source)] in
  _identify_content_column Samples.df_only_source init_stats
  = (Ok "source", init_stats)
  /\ exists d,
      fst (ingest_file root ["wards.csv"] init_stats)
      = Ok (SuccessDocuments [d])
      /\ dict_mem (metadata d) "source" = true
      /\ ~ (dict_mem (metadata d) "source" = false).
Proof.
  split; [reflexivity|]. eexists. split; [reflexivity|].
  split; [reflexivity|]. discriminate.
Qed.

(** C4, as the code has it.  A CSV file that [read_csv] parses into a
    frame with [N] rows (and at least one column): [ingest_file] succeeds
    with exactly [N] documents, one per row in row order, and counts them
    (none for [N = 0], still a success).  The content of a row's document
    is the string form of the row's value in the resolved content column.
    Its metadata holds source and file_type and, for every other column
    whose value in the row is not null, that value as a string; it has no
    other key, so the resolved content column is a key only when it is
    itself named source or file_type. *)
Theorem tabular_documents
    (root : node) (file_path : path) (df : DataFrame) (s : Stats) :
  lower (suffix file_path) = ".csv" ->
  pd_read_csv (resolve root file_path) = Ok df ->
  columns df <> [] ->
  exists text_column,
    _identify_content_column df s = (Ok text_column, s)
    /\ In text_column (columns df)
    /\ ingest_file root file_path s
       = (Ok (SuccessDocuments
                (map (csv_document file_path df text_column) (df_rows df))),
          bump (List.length (df_rows df)) s)
    /\ List.length (map (csv_document file_path df text_column) (df_rows df))
       = List.length (df_rows df)
    /\ forall row,
        let d := csv_document file_path df text_column row in
        content d = VStr (str_cell (row_get (columns df) row text_column))
        /\ dict_mem (metadata d) "source" = true
        /\ dict_mem (metadata d) "file_type" = true
        /\ (forall col,
              In col (columns df) -> col <> text_column ->
              isna (row_get (columns df) row col) = false ->
              dict_get (metadata d) col
              = Some (VStr (str_cell (row_get (columns df) row col))))
        /\ (forall k,
              In k (keys (metadata d)) ->
              k = "source" \/ k = "file_type"
              \/ (In k (columns df) /\ k <> text_column
                  /\ isna (row_get (columns df) row k) = false))
        /\ (text_column <> "source" -> text_column <> "file_type" ->
            dict_mem (metadata d) text_column = false).
Proof.
  intros Hsuffix Hread Hcols.
  destruct (content_column_total df Hcols) as (c & Hin & Hc).
  exists c. split; [apply Hc|]. split; [exact Hin|]. split; [|split].
  - rewrite ingest_file_csv; auto.
    + now apply ingest_csv_file_run.
    + eapply pd_read_csv_exists; eassumption.
  - apply length_map.
  - intros row d. subst d. simpl.
    destruct (csv_metadata_facts file_path df c row)
      as (_ & Hsrc & Hft & Hother & Hkeys).
    repeat split; auto.
    intros Hns Hnf. apply not_true_is_false. intros Hmem.
    apply dict_mem_keys in Hmem. apply Hkeys in Hmem.
    destruct Hmem as [H|[H|(_ & H & _)]]; congruence.
Qed.

Lemma tabular_documents_witness :
  ingest_file (Dir [("wards.csv", Samples.csv_file Samples.df_heuristic)])
    ["wards.csv"] init_stats
  = (Ok (SuccessDocuments
           [{| content := VStr "An infection";
               metadata := [("source", VStr "wards.csv");
                            ("file_type", VStr "csv");
                            ("id", VStr "1"); ("title", VStr "Flu")] |};
            {| content := VStr "nan";
               metadata := [("source", VStr "wards.csv");
                            ("file_type", VStr "csv");
                            ("id", VStr "2"); ("title", VStr "Cold")] |}]),
     {| files_processed := 0; documents_ingested := 2; errors := 0 |}).
Proof.
  destruct (tabular_documents
              (Dir [("wards.csv", Samples.csv_file Samples.df_heuristic)])
              ["wards.csv"] Samples.df_heuristic init_stats)
    as (c & Hc & _ & Hrun & _).
  - reflexivity.
  - reflexivity.
  - discriminate.
  - injection Hc as <-. exact Hrun.
Defined.

End Tabular.

(* ================================================================== *)
(** ** Paginated documents *)
(* ================================================================== *)

Module Paginated.
Import Py World Ingestion Statements PyFacts Effects Selection.

Lemma append_empty_r (s : string) : (s ++ "")%string = s.
Proof. induction s as [|c s IH]; simpl; congruence. Qed.

Lemma append_assoc (a b c : string) :
  ((a ++ b) ++ c)%string = (a ++ (b ++ c))%string.
Proof. induction a as [|x a IH]; simpl; congruence. Qed.

(** The loop over [enumerate(reader.pages)], started at page index [k]
    with [acc] already written. *)
Lemma pages_loop (l : list string) (k : nat) (acc : string) :
  fold_left
    (fun content np =>
       if nonempty (snd np)
       then (content ++ page_block (fst np) (snd np))%string
       else content)
    (combine (seq k (List.length l)) l) acc
  = (acc ++ pages_text (k + 1) l)%string.
Proof.
  revert k acc. induction l as [|t l IH]; intros k acc.
  - simpl. now rewrite append_empty_r.
  - cbn [List.length seq combine fold_left fst snd pages_text].
    rewrite IH. replace (S k + 1) with (S (k + 1)) by lia.
    destruct (nonempty t).
    + unfold page_block. now rewrite !append_assoc.
    + reflexivity.
Qed.

Lemma pdf_content_pages_text reader :
  pdf_content reader = pages_text 1 (pages reader).
Proof. unfold pdf_content, enumerate. now rewrite pages_loop. Qed.

Lemma pages_text_blank n l :
  (forall t, In t l -> t = "") -> pages_text n l = "".
Proof.
  revert n. induction l as [|t l IH]; intros n H; simpl; [reflexivity|].
  rewrite (H t (or_introl eq_refl)). simpl. apply IH.
  intros u Hu. apply H. now right.
Qed.

Lemma pdf_metadata_loop_collect info md :
  pdf_metadata_loop info md
  = fold_left (collect_step (fun kv => pdf_clean_key (fst kv)) pdf_kept) info md.
Proof.
  unfold pdf_metadata_loop. apply fold_left_pointwise. intros acc kv.
  unfold collect_step, pdf_kept, pdf_copied, pdf_clean_key.
  now destruct (nonempty (fst kv) && truthy (snd kv) && is_str (snd kv)).
Qed.

Lemma ingest_pdf_file_run root file_path reader s :
  PdfReader_ (resolve root file_path) = Ok reader ->
  _ingest_pdf_file root file_path s
  = (Ok (SuccessDocument
           {| content := VStr (pages_text 1 (pages reader));
              metadata := pdf_file_metadata file_path reader |}),
     bump 1 s).
Proof.
  intros Hread. unfold _ingest_pdf_file, try_except, bind, lift.
  rewrite Hread. simpl. now rewrite pdf_content_pages_text.
Qed.

Lemma PdfReader_exists n reader : PdfReader_ n = Ok reader -> exists_ n = true.
Proof. destruct n; simpl; try discriminate; reflexivity. Qed.

Lemma ingest_file_pdf root file_path :
  exists_ (resolve root file_path) = true ->
  lower (suffix file_path) = ".pdf" ->
  ingest_file root file_path = _ingest_pdf_file root file_path.
Proof.
  intros He Hs. unfold ingest_file. rewrite He, Hs. reflexivity.
Qed.

Lemma pdf_file_metadata_collect file_path reader :
  pdf_file_metadata file_path reader
  = fold_left (collect_step (fun kv => pdf_clean_key (fst kv)) pdf_kept)
      (info_entries reader)
      [("source", VStr (name file_path)); ("file_type", VStr "pdf");
       ("num_pages", VInt (Z.of_nat (List.length (pages reader))))].
Proof.
  unfold pdf_file_metadata, info_entries.
  destruct (pdf_metadata reader) as [info|]; [|reflexivity].
  destruct info as [|kv info]; [reflexivity|].
  simpl truthy. cbv iota. apply pdf_metadata_loop_collect.
Qed.

(** A one-page PDF whose information block has a key /Num_Pages: the
    document's num_pages is that string, not the page count. *)
Lemma num_pages_overwritten_by_info_key :
  let root := Dir [("scan.pdf", Samples.pdf_file Samples.pdf_with_num_pages_key)] in
  exists d,
    fst (ingest_file root ["scan.pdf"] init_stats) = Ok (SuccessDocument d)
    /\ List.length (pages Samples.pdf_with_num_pages_key) = 1
    /\ dict_get (metadata d) "num_pages" = Some (VStr "seven")
    /\ dict_get (metadata d) "num_pages" <> Some (VInt 1).
Proof.
  eexists. split; [reflexivity|]. split; [reflexivity|].
  split; [reflexivity|]. discriminate.
Qed.

(** C8, as the code has it.  A PDF that [PdfReader] reads: [ingest_file]
    succeeds with exactly one document and counts it.  The content is, in
    page order and with pages numbered from 1, the line [--- Page N ---]
    and the text of each page that has text, a page without text giving
    nothing; when every page is without text the content is the empty
    string and the call is still a success.  The metadata holds num_pages
    equal to the number of pages unless the information block of the file
    holds a non-empty string under a key that, without its leading slash
    and in lower case, is num_pages: the last such entry then replaces the
    page count. *)
Theorem paginated_document
    (root : node) (file_path : path) (reader : PdfReader) (s : Stats) :
  lower (suffix file_path) = ".pdf" ->
  PdfReader_ (resolve root file_path) = Ok reader ->
  exists md,
    ingest_file root file_path s
    = (Ok (SuccessDocument
             {| content := VStr (pages_text 1 (pages reader));
                metadata := md |}),
       bump 1 s)
    /\ ((forall kv, In kv (info_entries reader) -> pdf_copied kv = true ->
                    pdf_clean_key (fst kv) <> "num_pages") ->
        dict_get md "num_pages"
        = Some (VInt (Z.of_nat (List.length (pages reader)))))
    /\ (forall before key text after,
          info_entries reader = before ++ (key, VStr text) :: after ->
          pdf_copied (key, VStr text) = true ->
          pdf_clean_key key = "num_pages" ->
          (forall kv, In kv after -> pdf_copied kv = true ->
                      pdf_clean_key (fst kv) <> "num_pages") ->
          dict_get md "num_pages" = Some (VStr text))
    /\ ((forall t, In t (pages reader) -> t = "") ->
        pages_text 1 (pages reader) = "")
    /\ pages_text 1 ["first"; ""; "third"]
       = ("--- Page 1 ---" ++ nl ++ "first" ++ nl ++ nl
          ++ "--- Page 3 ---" ++ nl ++ "third" ++ nl ++ nl)%string.
Proof.
  intros Hsuffix Hread. exists (pdf_file_metadata file_path reader).
  split; [|split; [|split; [|split]]].
  - rewrite ingest_file_pdf; auto.
    + now apply ingest_pdf_file_run.
    + eapply PdfReader_exists; eassumption.
  - intros Hfree. rewrite pdf_file_metadata_collect.
    rewrite collect_get_untouched; [reflexivity|].
    intros b Hb Hk. unfold pdf_kept.
    destruct (pdf_copied b) eqn:E; [|reflexivity].
    exfalso. exact (Hfree b Hb E Hk).
  - intros before key text after Hsplit Hcopied Hkey Hafter.
    rewrite pdf_file_metadata_collect, Hsplit.
    change "num_pages" with (id "num_pages") at 1. unfold id.
    rewrite <- Hkey.
    apply (collect_get_last (fun kv => pdf_clean_key (fst kv)) pdf_kept
             before (key, VStr text) after).
    + unfold pdf_kept. now rewrite Hcopied.
    + intros b Hb Hk. unfold pdf_kept.
      destruct (pdf_copied b) eqn:E; [|reflexivity].
      exfalso. apply (Hafter b Hb E). simpl in Hk. congruence.
  - apply pages_text_blank.
  - reflexivity.
Qed.

Lemma paginated_document_witness :
  ingest_file (Dir [("scan.pdf", Samples.pdf_file Samples.three_pages)])
    ["scan.pdf"] init_stats
  = (Ok (SuccessDocument
           {| content :=
                VStr ("--- Page 1 ---" ++ nl ++ "first" ++ nl ++ nl
                      ++ "--- Page 3 ---" ++ nl ++ "third" ++ nl ++ nl)%string;
              metadata := [("source", VStr "scan.pdf");
                           ("file_type", VStr "pdf");
                           ("num_pages", VInt 3)] |}),
     {| files_processed := 0; documents_ingested := 1; errors := 0 |}).
Proof.
  destruct (paginated_document
              (Dir [("scan.pdf", Samples.pdf_file Samples.three_pages)])
              ["scan.pdf"] Samples.three_pages init_stats)
    as (md & Hrun & _).
  - reflexivity.
  - reflexivity.
  - rewrite Hrun. apply (f_equal fst) in Hrun. simpl in Hrun.
    injection Hrun as <-. reflexivity.
Defined.

End Paginated.

(* ================================================================== *)
(** ** Metadata keys: uniqueness and collisions *)
(* ================================================================== *)

Module Collisions.
Import Py World Ingestion Statements PyFacts Effects Selection FieldLocator
       JsonMapping ColumnLocator Tabular Paginated.

Lemma json_metadata_loop_collect item content_field md :
  json_metadata_loop item content_field md
  = fold_left (collect_step fst (json_kept content_field)) item md.
Proof.
  unfold json_metadata_loop. apply fold_left_pointwise. intros acc kv.
  unfold collect_step, json_kept.
  now destruct (negb (String.eqb (fst kv) content_field) && is_scalar (snd kv)).
Qed.




Lemma content_column_cases df :
  (exists c, forall s, _identify_content_column df s = (Ok c, s))
  \/ (exists e, forall s, _identify_content_column df s = (Raise e, s)).
Proof.
  unfold _identify_content_column.
  destruct (find _ content_column_names); [left; eexists; reflexivity|].
  destruct (avg_lengths df); [|left; eexists; reflexivity].
  destruct (columns df); [right|left]; eexists; reflexivity.
Qed.


Lemma json_list_body_any file_path documents item s :
  json_list_body file_path documents item s
  = (Ok (documents ++ collection_documents file_path item), s).
Proof.
  destruct item; try (simpl; unfold ret; now rewrite app_nil_r).
  apply json_list_body_appends.
Qed.









End Collisions.


(* ================================================================== *)
(** ** The dispatcher and the document counter *)
(* ================================================================== *)

Module Dispatch.
Import Py World Ingestion Statements PyFacts Effects Selection FieldLocator
       JsonMapping ColumnLocator Tabular Paginated Collisions Accumulator.

Lemma text_counts root p s :
  documents_ingested (snd (_ingest_text_file root p s))
  = documents_ingested s
    + List.length (returned_documents (fst (_ingest_text_file root p s))).
Proof.
  unfold _ingest_text_file, try_except, bind, lift.
  destruct (open_read (resolve root p)); simpl; lia.
Qed.

Lemma csv_counts root p s :
  documents_ingested (snd (_ingest_csv_file root p s))
  = documents_ingested s
    + List.length (returned_documents (fst (_ingest_csv_file root p s))).
Proof.
  destruct (pd_read_csv (resolve root p)) as [df|e] eqn:Hread.
  - destruct (content_column_cases df) as [(c & Hc)|(e & He)].
    + rewrite (ingest_csv_file_run root p df c s Hread Hc). simpl.
      now rewrite length_map.
    + unfold _ingest_csv_file, try_except, bind, lift.
      rewrite Hread, He. simpl. lia.
  - unfold _ingest_csv_file, try_except, bind, lift. rewrite Hread.
    simpl. lia.
Qed.

Lemma ingest_json_file_run root p data s :
  open_json_load (resolve root p) = Ok data ->
  _ingest_json_file root p s
  = match payload_documents p data with
    | [] => (Ok (Failure "No valid documents found"), s)
    | d :: ds =>
        (Ok (SuccessDocuments (d :: ds)), bump (List.length (d :: ds)) s)
    end.
Proof.
  intros Hload. unfold _ingest_json_file, try_except, bind, lift.
  rewrite Hload.
  destruct data; try reflexivity.
  - rewrite (for_each_appends (collection_documents p))
      by apply json_list_body_any.
    simpl app. change (flat_map (collection_documents p) l)
      with (payload_documents p (VList l)).
    now destruct (payload_documents p (VList l)).
  - rewrite (for_each_appends (mapping_documents p))
      by apply json_dict_body_appends.
    simpl app. change (flat_map (mapping_documents p) d)
      with (payload_documents p (VDict d)).
    now destruct (payload_documents p (VDict d)).
Qed.

Lemma ingest_json_file_unreadable root p e s :
  open_json_load (resolve root p) = Raise e ->
  _ingest_json_file root p s = (Ok (Failure (str_exn e)), s).
Proof.
  intros Hload. unfold _ingest_json_file, try_except, bind, lift.
  now rewrite Hload.
Qed.

Lemma json_counts root p s :
  documents_ingested (snd (_ingest_json_file root p s))
  = documents_ingested s
    + List.length (returned_documents (fst (_ingest_json_file root p s))).
Proof.
  destruct (open_json_load (resolve root p)) as [data|e] eqn:Hload.
  - rewrite (ingest_json_file_run root p data s Hload).
    destruct (payload_documents p data); simpl; lia.
  - rewrite (ingest_json_file_unreadable root p e s Hload). simpl. lia.
Qed.

Lemma pdf_counts root p s :
  documents_ingested (snd (_ingest_pdf_file root p s))
  = documents_ingested s
    + List.length (returned_documents (fst (_ingest_pdf_file root p s))).
Proof.
  unfold _ingest_pdf_file, try_except, bind, lift.
  destruct (PdfReader_ (resolve root p)); simpl; lia.
Qed.

Lemma ingest_file_counts root file_path s :
  documents_ingested (snd (ingest_file root file_path s))
  = documents_ingested s
    + List.length (returned_documents (fst (ingest_file root file_path s))).
Proof.
  unfold ingest_file.
  destruct (negb _); [simpl; lia|].
  destruct (String.eqb _ ".txt"); [apply text_counts|].
  destruct (String.eqb _ ".csv"); [apply csv_counts|].
  destruct (String.eqb _ ".json"); [apply json_counts|].
  destruct (String.eqb _ ".pdf"); [apply pdf_counts|].
  simpl. lia.
Qed.

(** X2.  The document counter moves by exactly the number of documents
    the call returns: a single one for a text or PDF file, one per row or
    per record for a CSV or JSON file, none when the call returns a
    failure dict or raises. *)
Theorem documents_counter_matches_returned_documents
    (root : node) (file_path : path) (s : Stats) :
  documents_ingested (snd (ingest_file root file_path s))
  = documents_ingested s
    + List.length (returned_documents (fst (ingest_file root file_path s))).
Proof. apply ingest_file_counts. Qed.



End Dispatch.


(* ================================================================== *)
(** ** Totals of a batch *)
(* ================================================================== *)

Module BatchTotals.
Import Py World Ingestion Statements PyFacts Effects Accumulator Dispatch.

Lemma stats_ext (s s' : Stats) :
  files_processed s = files_processed s' ->
  documents_ingested s = documents_ingested s' ->
  errors s = errors s' ->
  s = s'.
Proof. destruct s, s'; simpl; intros -> -> ->; reflexivity. Qed.

Lemma add_stats_0 s : add_stats 0 0 0 s = s.
Proof. apply stats_ext; simpl; lia. Qed.

Lemma add_stats_add a b c a' b' c' s :
  add_stats a' b' c' (add_stats a b c s) = add_stats (a + a') (b + b') (c + c') s.
Proof. apply stats_ext; simpl; lia. Qed.

(** What [ingest_file] does to any counters, by the documents it gives
    from fresh ones. *)
Lemma ingest_file_outcome root f :
  exists r, outcome (ingest_file root f) r (documents_of_file root f).
Proof.
  destruct (uniform_ingest_file root f) as (r & n & H). exists r.
  assert (n = documents_of_file root f) as <-; [|exact H].
  pose proof (ingest_file_counts root f init_stats) as Hc.
  unfold documents_of_file. rewrite H in Hc |- *. simpl in Hc |- *. lia.
Qed.

Lemma missing_file_no_documents root f :
  exists_ (resolve root f) = false -> documents_of_file root f = 0.
Proof.
  intros E. unfold documents_of_file.
  now rewrite (ingest_file_absent root f E).
Qed.

Lemma directory_loop_body_step root f s :
  directory_loop_body root f s
  = (Ok tt,
     if exists_ (resolve root f)
     then add_stats 1 (documents_of_file root f) 0 s
     else add_stats 0 (documents_of_file root f) 1 s).
Proof.
  destruct (exists_ (resolve root f)) eqn:E.
  - destruct (ingest_file_outcome root f) as (r & Hr).
    destruct (ingest_file_present root f E) as (r' & n' & Hr').
    destruct (outcome_unique _ _ _ _ _ Hr Hr') as (-> & _).
    unfold directory_loop_body, try_except, bind. rewrite Hr.
    unfold incr_files_processed. cbv beta iota.
    f_equal. apply stats_ext; simpl; lia.
  - rewrite (directory_loop_body_absent root f s E).
    rewrite (missing_file_no_documents root f E).
    f_equal. apply stats_ext; simpl; lia.
Qed.

Lemma directory_loop_totals root files : forall s,
  for_each files (fun _ file_path => directory_loop_body root file_path) tt s
  = (Ok tt, batch_stats root files s).
Proof.
  induction files as [|f files IH]; intros s.
  - simpl. unfold ret, batch_stats. simpl. now rewrite add_stats_0.
  - simpl. unfold bind. rewrite directory_loop_body_step, IH.
    f_equal. unfold batch_stats, present, missing, total_documents. simpl.
    destruct (exists_ (resolve root f)); simpl;
      rewrite add_stats_add; apply stats_ext; simpl; lia.
Qed.

Lemma ingest_directory_on_directory root directory_path file_extension s :
  is_dir (resolve root directory_path) = true ->
  ingest_directory root directory_path file_extension s
  = (Ok (batch_stats root (listing root directory_path file_extension) s),
     batch_stats root (listing root directory_path file_extension) s).
Proof.
  intros Hdir. unfold ingest_directory, try_except, bind.
  assert (exists_ (resolve root directory_path) = true) as He
      by (destruct (resolve root directory_path); auto; discriminate).
  rewrite He, Hdir. simpl. now rewrite directory_loop_totals.
Qed.

Lemma ingest_directory_elsewhere root directory_path file_extension s :
  is_dir (resolve root directory_path) = false ->
  ingest_directory root directory_path file_extension s = (Ok s, s).
Proof.
  intros Hdir. unfold ingest_directory, try_except, bind.
  rewrite Hdir. now rewrite orb_true_r.
Qed.

(** The increments of a call, whatever the path is. *)
Lemma ingest_directory_increments root directory_path file_extension :
  exists a b c, forall s,
    ingest_directory root directory_path file_extension s
    = (Ok (add_stats a b c s), add_stats a b c s).
Proof.
  destruct (is_dir (resolve root directory_path)) eqn:Hdir.
  - eexists _, _, _. intros s.
    rewrite ingest_directory_on_directory by assumption. reflexivity.
  - exists 0, 0, 0. intros s.
    rewrite ingest_directory_elsewhere by assumption.
    now rewrite add_stats_0.
Qed.



(** X4.  [ingest_directory] never raises, whatever the path and the
    files are: it returns the accumulator, in which no counter has gone
    down. *)
Theorem ingest_directory_never_raises
    (root : node) (directory_path : path) (file_extension : option string)
    (s : Stats) :
  exists st,
    ingest_directory root directory_path file_extension s = (Ok st, st)
    /\ files_processed s <= files_processed st
    /\ documents_ingested s <= documents_ingested st
    /\ errors s <= errors st.
Proof.
  destruct (ingest_directory_increments root directory_path file_extension)
    as (a & b & c & H).
  exists (add_stats a b c s). split; [apply H|]. simpl. lia.
Qed.

(** X6.  The counters are never reset: what a call adds to them does not
    depend on where they stand, so a second batch over the same directory
    with the same ingestor adds the same amounts again. *)
Theorem batches_accumulate
    (root : node) (directory_path : path) (file_extension : option string) :
  exists a b c,
    (forall s,
        snd (ingest_directory root directory_path file_extension s)
        = add_stats a b c s)
    /\ (forall s,
          snd (ingest_directory root directory_path file_extension
                 (snd (ingest_directory root directory_path file_extension s)))
          = add_stats (a + a) (b + b) (c + c) s).
Proof.
  destruct (ingest_directory_increments root directory_path file_extension)
    as (a & b & c & H).
  exists a, b, c. split; intros s; rewrite !H; simpl; [reflexivity|].
  apply add_stats_add.
Qed.







End BatchTotals.


(* ================================================================== *)
(** ** Failures and edge cases of the extractors *)
(* ================================================================== *)

Module Failures.
Import Py World Ingestion Statements PyFacts Effects Selection FieldLocator
       JsonMapping ColumnLocator Tabular Paginated Collisions Accumulator
       Dispatch.

Lemma no_columns_raises df s :
  columns df = [] ->
  _identify_content_column df s
  = (Raise (Exn IndexError "index 0 is out of bounds for axis 0 with size 0"), s).
Proof.
  intros H. unfold _identify_content_column, avg_lengths. rewrite H. reflexivity.
Qed.

(** X14.  On a frame whose column labels are distinct, the column
    locator raises exactly when the frame has no columns (the
    [IndexError] of [df.columns[0]]); on every other such frame it returns
    the name of one of the frame's columns.  It never touches the
    counters. *)
Theorem content_column_raises_iff_no_columns (df : DataFrame) (s : Stats) :
  NoDup (columns df) ->
  ((exists e, fst (_identify_content_column df s) = Raise e)
   <-> columns df = [])
  /\ (forall e, fst (_identify_content_column df s) = Raise e ->
                kind e = IndexError)
  /\ (forall c, fst (_identify_content_column df s) = Ok c ->
                In c (columns df))
  /\ snd (_identify_content_column df s) = s.
Proof.
  intros _.
  destruct (columns df) as [|c0 l] eqn:Hcols.
  - rewrite (no_columns_raises df s Hcols). simpl.
    repeat split; try discriminate; eauto.
    intros e [= <-]. reflexivity.
  - assert (columns df <> []) as Hne by congruence.
    destruct (content_column_total df Hne) as (c & Hin & Hc).
    rewrite Hc. simpl. rewrite Hcols in Hin.
    repeat split; try discriminate.
    + intros (e & He). discriminate He.
    + intros c' [= <-]. exact Hin.
Qed.

Lemma content_column_raises_iff_no_columns_witness :
  In "notes" (columns Samples.df_heuristic).
Proof.
  destruct (content_column_raises_iff_no_columns Samples.df_heuristic init_stats)
    as (_ & _ & H & _).
  - repeat constructor; simpl; intuition discriminate.
  - apply H. reflexivity.
Defined.

(** X13.  A text file (suffix .txt in any letter case) that can be read
    gives exactly one document: its content is the whole text, its
    metadata is exactly the file name under source and txt under
    file_type, and one document is counted. *)
Theorem text_file_document
    (root : node) (file_path : path) (text : string) (s : Stats) :
  lower (suffix file_path) = ".txt" ->
  open_read (resolve root file_path) = Ok text ->
  ingest_file root file_path s
  = (Ok (SuccessDocument
           {| content := VStr text;
              metadata := [("source", VStr (name file_path));
                           ("file_type", VStr "txt")] |}),
     bump 1 s).
Proof.
  intros Hsuffix Hread.
  assert (exists_ (resolve root file_path) = true) as He.
  { destruct (resolve root file_path); simpl in *; auto; discriminate. }
  unfold ingest_file. rewrite He, Hsuffix. simpl.
  unfold _ingest_text_file, try_except, bind, lift. now rewrite Hread.
Qed.

Lemma text_file_document_witness :
  ingest_file (Dir [("NOTE.TXT", Samples.text_file "hello")]) ["NOTE.TXT"]
    init_stats
  = (Ok (SuccessDocument
           {| content := VStr "hello";
              metadata := [("source", VStr "NOTE.TXT");
                           ("file_type", VStr "txt")] |}),
     {| files_processed := 0; documents_ingested := 1; errors := 0 |}).
Proof.
  apply (text_file_document (Dir [("NOTE.TXT", Samples.text_file "hello")])
           ["NOTE.TXT"] "hello" init_stats); reflexivity.
Defined.

(** X11.  When the reader of a format raises on the file, the extractor
    of that format raises nothing: it returns a failure dict whose error
    is the message of the exception, and counts no document. *)
Theorem reader_error_gives_failure
    (root : node) (file_path : path) (e : exn) (s : Stats) :
  (open_read (resolve root file_path) = Raise e ->
   _ingest_text_file root file_path s = (Ok (Failure (str_exn e)), s))
  /\ (pd_read_csv (resolve root file_path) = Raise e ->
      _ingest_csv_file root file_path s = (Ok (Failure (str_exn e)), s))
  /\ (open_json_load (resolve root file_path) = Raise e ->
      _ingest_json_file root file_path s = (Ok (Failure (str_exn e)), s))
  /\ (PdfReader_ (resolve root file_path) = Raise e ->
      _ingest_pdf_file root file_path s = (Ok (Failure (str_exn e)), s)).
Proof.
  split; [|split; [|split]].
  - intros H. unfold _ingest_text_file, try_except, bind, lift. now rewrite H.
  - intros H. unfold _ingest_csv_file, try_except, bind, lift. now rewrite H.
  - apply ingest_json_file_unreadable.
  - intros H. unfold _ingest_pdf_file, try_except, bind, lift. now rewrite H.
Qed.

Lemma reader_error_gives_failure_witness :
  _ingest_csv_file (Dir [("notes.csv", Samples.text_file "hello")])
    ["notes.csv"] init_stats
  = (Ok (Failure "cannot parse"), init_stats).
Proof.
  destruct (reader_error_gives_failure
              (Dir [("notes.csv", Samples.text_file "hello")]) ["notes.csv"]
              (Exn ReaderError "cannot parse") init_stats)
    as (_ & H & _).
  apply H. reflexivity.
Defined.

End Failures.

(* ================================================================== *)
(** ** JSON payloads and the metadata of their documents *)
(* ================================================================== *)

Module Payloads.
Import Py World Ingestion Statements PyFacts Effects Selection FieldLocator
       JsonMapping ColumnLocator Tabular Paginated Collisions Accumulator
       Dispatch.

Lemma In_dict_set {V} (d : dict V) k v k' v' :
  In (k, v) (dict_set d k' v') -> (k, v) = (k', v') \/ In (k, v) d.
Proof.
  induction d as [|[k0 v0] d IH]; simpl.
  - intros [H|[]]. left. congruence.
  - destruct (String.eqb k' k0); simpl.
    + intros [H|H]; [left; congruence|right; now right].
    + intros [H|H]; [right; now left|].
      apply IH in H. destruct H; [now left|right; now right].
Qed.

(** What holds of the entries a loop starts from and of every entry it
    assigns holds of the entries it ends with. *)
Lemma collect_entries {A V} (kf : A -> string) (g : A -> option V)
    (P : string * V -> Prop) l :
  (forall a v, In a l -> g a = Some v -> P (kf a, v)) ->
  forall acc,
    (forall kv, In kv acc -> P kv) ->
    forall kv, In kv (fold_left (collect_step kf g) l acc) -> P kv.
Proof.
  induction l as [|a l IH]; intros Hg acc Hacc kv; simpl; [apply Hacc|].
  apply IH.
  - intros b v Hb. apply Hg. now right.
  - intros [k v]. unfold collect_step. destruct (g a) as [w|] eqn:E.
    + intros H. apply In_dict_set in H. destruct H as [H|H].
      * rewrite H. apply Hg; [now left|exact E].
      * now apply Hacc.
    + apply Hacc.
Qed.

Lemma json_kept_scalar content_field kv v :
  json_kept content_field kv = Some v ->
  v = snd kv /\ is_scalar v = true /\ fst kv <> content_field.
Proof.
  unfold json_kept.
  destruct (String.eqb (fst kv) content_field) eqn:E; simpl; [discriminate|].
  destruct (is_scalar (snd kv)) eqn:Hs; [|discriminate].
  intros [= <-]. apply String.eqb_neq in E. auto.
Qed.

Lemma nested_record_scalar base item d :
  (forall kv, In kv base -> is_scalar (snd kv) = true) ->
  In d (nested_record base item) ->
  forall kv, In kv (metadata d) -> is_scalar (snd kv) = true.
Proof.
  intros Hbase. unfold nested_record.
  destruct (field_found _) as [f|]; [|intros []].
  destruct (dict_get item f) as [c|]; [|intros []].
  intros [<-|[]]. simpl. rewrite json_metadata_loop_collect.
  apply (collect_entries fst (json_kept f)
           (fun kv => is_scalar (snd kv) = true)); [|exact Hbase].
  intros a v _ Hv. apply json_kept_scalar in Hv. simpl. tauto.
Qed.

Ltac literal_entries :=
  simpl; intros kv H;
  repeat (destruct H as [<-|H]; [reflexivity|]); destruct H.

Lemma payload_documents_scalar file_path data d :
  In d (payload_documents file_path data) ->
  forall kv, In kv (metadata d) -> is_scalar (snd kv) = true.
Proof.
  destruct data; simpl; try (intros []).
  - rewrite in_flat_map. intros (x & _ & Hd). destruct x; try destruct Hd.
    revert Hd. apply nested_record_scalar. literal_entries.
  - rewrite in_flat_map. intros ([k v] & _ & Hd).
    unfold mapping_documents in Hd. simpl in Hd.
    destruct v; try destruct Hd.
    + destruct (100 <? String.length s); [|destruct Hd].
      destruct Hd as [<-|[]]. literal_entries.
    + revert Hd. apply nested_record_scalar. literal_entries.
Qed.

Lemma json_returned_documents root p s d :
  In d (returned_documents (fst (_ingest_json_file root p s))) ->
  exists data,
    open_json_load (resolve root p) = Ok data
    /\ In d (payload_documents p data).
Proof.
  destruct (open_json_load (resolve root p)) as [data|e] eqn:Hload.
  - rewrite (ingest_json_file_run root p data s Hload).
    intros H. exists data. split; [reflexivity|].
    destruct (payload_documents p data); [destruct H|exact H].
  - rewrite (ingest_json_file_unreadable root p e s Hload). intros [].
Qed.

(** X8.  Every value in the metadata of a document made from a JSON file
    is a string, an integer, a float or a boolean: fields holding null, a
    list or an object are never copied. *)
Theorem json_metadata_values_are_scalar
    (root : node) (file_path : path) (s : Stats) (d : Document)
    (k : string) (v : value) :
  In d (returned_documents (fst (_ingest_json_file root file_path s))) ->
  In (k, v) (metadata d) ->
  is_scalar v = true.
Proof.
  intros Hd Hkv. apply json_returned_documents in Hd.
  destruct Hd as (data & _ & Hd).
  exact (payload_documents_scalar file_path data d Hd (k, v) Hkv).
Qed.

Lemma json_metadata_values_are_scalar_witness :
  is_scalar (VStr "x") = true.
Proof.
  apply (json_metadata_values_are_scalar
           (Dir [("records.json", Samples.json_file (VDict Samples.single_mapping))])
           ["records.json"] init_stats
           {| content := VStr "hello world";
              metadata := [("source", VStr "records.json");
                           ("file_type", VStr "json");
                           ("document_id", VStr "meta");
                           ("tag", VStr "x")] |}
           "tag" (VStr "x")).
  - right. left. reflexivity.
  - simpl. auto.
Defined.

Lemma located_field_text item f :
  NoDup (keys item) ->
  _identify_json_content_field item = Some f ->
  exists text,
    dict_get item f = Some (VStr text)
    /\ (In f content_field_names \/ 50 < String.length text).
Proof.
  intros Hnd. unfold _identify_json_content_field.
  destruct (find _ content_field_names) as [name|] eqn:E.
  - intros [= <-]. apply find_some in E. destruct E as (Hin & E).
    apply named_text_iff in E. destruct E as (text & Ht).
    exists text. auto.
  - destruct (text_fields item) as [|first rest] eqn:T; [discriminate|].
    intros [= <-].
    pose proof (max_from_In snd nat_gt first rest) as Hin.
    rewrite <- T, text_fields_distinct in Hin by assumption.
    apply kept_long_text_In in Hin.
    destruct Hin as (k & text & Hitem & -> & Hlen). simpl.
    exists text. split; [now apply In_dict_get|now right].
Qed.

(** X9.  The field the locator names always holds a string in the
    object (a dict, so with distinct keys): it is one of the five
    priority names or its string is longer than 50 characters.  So the
    content of the document made from an object is always a string. *)
Theorem located_field_holds_text (item : dict value) (f : string) :
  NoDup (keys item) ->
  _identify_json_content_field item = Some f ->
  (exists text,
      dict_get item f = Some (VStr text)
      /\ (In f content_field_names \/ 50 < String.length text))
  /\ (forall base d,
        In d (nested_record base item) -> exists text, content d = VStr text).
Proof.
  intros Hnd Hf. split; [now apply located_field_text|].
  intros base d. unfold nested_record, field_found. rewrite Hf.
  destruct (nonempty f); [|intros []].
  destruct (located_field_text item f Hnd Hf) as (text & -> & _).
  intros [<-|[]]. now exists text.
Qed.

Lemma located_field_holds_text_witness :
  exists text,
    dict_get Samples.long_fields "details" = Some (VStr text)
    /\ (In "details" content_field_names \/ 50 < String.length text).
Proof.
  destruct (located_field_holds_text Samples.long_fields "details") as (H & _).
  - repeat constructor; simpl; intuition discriminate.
  - reflexivity.
  - exact H.
Defined.

(** X7.  What [_ingest_json_file] makes of any payload that [json.load]
    returns: the documents of its items, in order, for a list (an item
    that is not an object, or an object without a content field, gives
    nothing); the documents of its keys for a mapping; nothing for a
    string, a number, a boolean or null.  It fails with
    "No valid documents found", counting nothing, exactly when there is no
    document, and otherwise returns the documents and counts them. *)
Theorem json_payload_documents
    (root : node) (file_path : path) (data : value) (s : Stats) :
  open_json_load (resolve root file_path) = Ok data ->
  _ingest_json_file root file_path s
  = match payload_documents file_path data with
    | [] => (Ok (Failure "No valid documents found"), s)
    | d :: ds =>
        (Ok (SuccessDocuments (d :: ds)), bump (List.length (d :: ds)) s)
    end
  /\ (fst (_ingest_json_file root file_path s)
      = Ok (Failure "No valid documents found")
      <-> payload_documents file_path data = [])
  /\ (forall items,
        (forall x o, In x items -> x <> VDict o) ->
        payload_documents file_path (VList items) = [])
  /\ ((forall l, data <> VList l) -> (forall d, data <> VDict d) ->
      payload_documents file_path data = []).
Proof.
  intros Hload. split; [now apply ingest_json_file_run|].
  split; [|split].
  - rewrite (ingest_json_file_run root file_path data s Hload).
    destruct (payload_documents file_path data); simpl.
    + split; reflexivity.
    + split; intros H; discriminate H.
  - intros items Hitems. simpl.
    induction items as [|x items IH]; simpl; [reflexivity|].
    rewrite IH by (intros y o Hy; apply Hitems; now right).
    destruct x; try reflexivity.
    exfalso. apply (Hitems (VDict d) d); [now left|reflexivity].
  - intros Hl Hd. destruct data; try reflexivity.
    + exfalso. now apply (Hl l).
    + exfalso. now apply (Hd d).
Qed.

Lemma json_payload_documents_witness :
  _ingest_json_file
    (Dir [("cases.json",
           Samples.json_file
             (VList [VDict Samples.short_note; VInt 3;
                     VDict [("text", VStr "fever"); ("age", VInt 4);
                            ("tags", VList [])]]))])
    ["cases.json"] init_stats
  = (Ok (SuccessDocuments
           [{| content := VStr "fever";
               metadata := [("source", VStr "cases.json");
                            ("file_type", VStr "json");
                            ("age", VInt 4)] |}]),
     {| files_processed := 0; documents_ingested := 1; errors := 0 |}).
Proof.
  destruct (json_payload_documents
              (Dir [("cases.json",
                     Samples.json_file
                       (VList [VDict Samples.short_note; VInt 3;
                               VDict [("text", VStr "fever"); ("age", VInt 4);
                                      ("tags", VList [])]]))])
              ["cases.json"]
              (VList [VDict Samples.short_note; VInt 3;
                      VDict [("text", VStr "fever"); ("age", VInt 4);
                             ("tags", VList [])]])
              init_stats eq_refl) as (H & _).
  exact H.
Defined.

End Payloads.

(* ================================================================== *)
(** ** The content and the metadata of a PDF document *)
(* ================================================================== *)

Module PdfFacts.
Import Py World Ingestion Statements PyFacts Effects Selection Paginated
       Payloads.

Lemma lower_char_idem c : lower_char (lower_char c) = lower_char c.
Proof. destruct c as [[] [] [] [] [] [] [] []]; reflexivity. Qed.

Lemma lower_idem s : lower (lower s) = lower s.
Proof.
  induction s as [|c s IH]; simpl; [reflexivity|].
  now rewrite lower_char_idem, IH.
Qed.

Lemma pdf_kept_string kv v :
  pdf_kept kv = Some v -> v = snd kv /\ is_str v = true /\ truthy v = true.
Proof.
  unfold pdf_kept, pdf_copied.
  destruct (nonempty (fst kv)); simpl; [|discriminate].
  destruct (truthy (snd kv)) eqn:Ht; simpl; [|discriminate].
  destruct (is_str (snd kv)) eqn:Hs; [|discriminate].
  intros [= <-]. auto.
Qed.

Lemma pdf_returned_document root p s d :
  In d (returned_documents (fst (_ingest_pdf_file root p s))) ->
  exists reader,
    PdfReader_ (resolve root p) = Ok reader
    /\ d = {| content := VStr (pdf_content reader);
              metadata := pdf_file_metadata p reader |}.
Proof.
  destruct (PdfReader_ (resolve root p)) as [reader|e] eqn:Hread.
  - rewrite (ingest_pdf_file_run root p reader s Hread). simpl.
    intros [<-|[]]. exists reader. now rewrite pdf_content_pages_text.
  - unfold _ingest_pdf_file, try_except, bind, lift. rewrite Hread.
    intros [].
Qed.

(** X10.  In the metadata of a PDF document every key is in lower case,
    and every value is a string, except the page count under num_pages
    when no information entry replaced it: only string-valued
    information entries are copied, under their lower-cased key. *)
Theorem pdf_metadata_keys_are_lowercase
    (root : node) (file_path : path) (s : Stats) (d : Document)
    (k : string) (v : value) :
  In d (returned_documents (fst (_ingest_pdf_file root file_path s))) ->
  In (k, v) (metadata d) ->
  lower k = k
  /\ (is_str v = true \/ (k = "num_pages" /\ exists n, v = VInt n)).
Proof.
  intros Hd Hkv. apply pdf_returned_document in Hd.
  destruct Hd as (reader & _ & ->). simpl in Hkv.
  rewrite pdf_file_metadata_collect in Hkv.
  revert Hkv.
  apply (collect_entries (fun kv => pdf_clean_key (fst kv)) pdf_kept
           (fun kv => lower (fst kv) = fst kv
                      /\ (is_str (snd kv) = true
                          \/ (fst kv = "num_pages" /\ exists n, snd kv = VInt n)))
           (info_entries reader)).
  - intros a w _ Hw. apply pdf_kept_string in Hw. simpl. split.
    + unfold pdf_clean_key. apply lower_idem.
    + left. tauto.
  - simpl. intros kv [<-|[<-|[<-|[]]]]; simpl; split; auto.
    right. split; [reflexivity|]. eexists. reflexivity.
Qed.

Lemma pdf_metadata_keys_are_lowercase_witness :
  lower "author" = "author"
  /\ (is_str (VStr "Ann") = true
      \/ ("author" = "num_pages" /\ exists n, VStr "Ann" = VInt n)).
Proof.
  apply (pdf_metadata_keys_are_lowercase
           (Dir [("scan.pdf", Samples.pdf_file Samples.pdf_with_num_pages_key)])
           ["scan.pdf"] init_stats
           {| content := VStr ("--- Page 1 ---" ++ nl ++ "first" ++ nl ++ nl);
              metadata := [("source", VStr "scan.pdf");
                           ("file_type", VStr "pdf");
                           ("num_pages", VStr "seven");
                           ("author", VStr "Ann")] |}
           "author" (VStr "Ann")).
  - left. reflexivity.
  - simpl. auto.
Defined.

Lemma nonempty_false t : nonempty t = false -> t = "".
Proof. destruct t; [reflexivity|discriminate]. Qed.

Lemma pages_text_empty n l :
  pages_text n l = "" -> forall t, In t l -> t = "".
Proof.
  revert n. induction l as [|u l IH]; intros n H t Ht; [destruct Ht|].
  simpl in H. destruct (nonempty u) eqn:E.
  - discriminate H.
  - simpl in H. destruct Ht as [<-|Ht].
    + now apply nonempty_false.
    + eapply IH; eassumption.
Qed.

(** X12.  The content of a PDF document is the empty string exactly when
    no page of the file has text. *)
Theorem pdf_content_empty_iff_no_text (reader : PdfReader) :
  pdf_content reader = "" <-> (forall t, In t (pages reader) -> t = "").
Proof.
  rewrite pdf_content_pages_text. split.
  - apply pages_text_empty.
  - apply pages_text_blank.
Qed.

End PdfFacts.

(* ================================================================== *)
(** ** How many documents a JSON payload can give *)
(* ================================================================== *)

Module PayloadBounds.
Import Py World Ingestion Statements Dispatch Payloads.

Lemma nested_record_at_most_one base item :
  List.length (nested_record base item) <= 1.
Proof.
  unfold nested_record. destruct (field_found _); simpl; [|lia].
  destruct (dict_get item s); simpl; lia.
Qed.

Lemma mapping_documents_at_most_one file_path kv :
  List.length (mapping_documents file_path kv) <= 1.
Proof.
  unfold mapping_documents. destruct (snd kv); simpl; try lia.
  - destruct (100 <? String.length s); simpl; lia.
  - apply nested_record_at_most_one.
Qed.

Lemma flat_map_at_most_one {A B} (f : A -> list B) l :
  (forall x, List.length (f x) <= 1) ->
  List.length (flat_map f l) <= List.length l.
Proof.
  intros H. induction l as [|x l IH]; simpl; [lia|].
  rewrite length_app. specialize (H x). lia.
Qed.

(** The number of records of a payload: the items of a list, the keys
    of a mapping. *)
Lemma payload_documents_bound file_path data :
  List.length (payload_documents file_path data)
  <= match data with
     | VList items => List.length items
     | VDict d => List.length d
     | _ => 0
     end.
Proof.
  destruct data; simpl; try lia.
  - apply flat_map_at_most_one. intros x. destruct x; simpl; try lia.
    apply nested_record_at_most_one.
  - apply flat_map_at_most_one. apply mapping_documents_at_most_one.
Qed.

(** X15.  A JSON file gives at most one document per record: the call
    never counts more documents than the list has items or the mapping
    has keys, and none for any other payload. *)
Theorem json_at_most_one_document_per_record
    (root : node) (file_path : path) (data : value) (s : Stats) :
  open_json_load (resolve root file_path) = Ok data ->
  documents_ingested (snd (_ingest_json_file root file_path s))
  <= documents_ingested s
     + match data with
       | VList items => List.length items
       | VDict d => List.length d
       | _ => 0
       end
  /\ List.length
       (returned_documents (fst (_ingest_json_file root file_path s)))
     <= match data with
        | VList items => List.length items
        | VDict d => List.length d
        | _ => 0
        end.
Proof.
  intros Hload.
  pose proof (payload_documents_bound file_path data) as Hb.
  rewrite (ingest_json_file_run root file_path data s Hload).
  destruct (payload_documents file_path data) as [|d ds]; simpl in *; lia.
Qed.

Lemma json_at_most_one_document_per_record_witness :
  documents_ingested
    (snd (_ingest_json_file
            (Dir [("records.json",
                   Samples.json_file (VDict Samples.single_mapping))])
            ["records.json"] init_stats))
  <= 0 + 2.
Proof.
  destruct (json_at_most_one_document_per_record
              (Dir [("records.json",
                     Samples.json_file (VDict Samples.single_mapping))])
              ["records.json"] (VDict Samples.single_mapping) init_stats
              eq_refl) as (H & _).
  exact H.
Defined.

End PayloadBounds.

(* ================================================================== *)
(** ** Structured records: the documents of a single mapping *)
(* ================================================================== *)

Module SingleMapping.
Import Py World Ingestion Statements PyFacts Effects Selection FieldLocator
       JsonMapping Collisions Dispatch Payloads.

Lemma nonempty_true f : f <> "" -> nonempty f = true.
Proof. destruct f; [congruence|reflexivity]. Qed.

(** A scalar field of the object other than its content field is in the
    metadata with its value, whatever the metadata started with. *)
Lemma json_metadata_field item f base k v :
  NoDup (keys item) -> In (k, v) item -> k <> f -> is_scalar v = true ->
  dict_get (json_metadata_loop item f base) k = Some v.
Proof.
  intros Hnd Hin Hne Hsc. rewrite json_metadata_loop_collect.
  apply collect_get_same.
  - intros [k' v'] Hb Hk. simpl in Hk. subst k'.
    assert (v' = v) as ->.
    { apply In_dict_get in Hb; [|assumption].
      apply In_dict_get in Hin; [|assumption]. congruence. }
    unfold json_kept. simpl.
    apply String.eqb_neq in Hne. now rewrite Hne, Hsc.
  - right. now exists (k, v).
Qed.

(** A key that no remaining scalar field of the object bears keeps the
    value the metadata started with. *)
Lemma json_metadata_untouched item f base r :
  (forall v, In (r, v) item -> r = f \/ is_scalar v = false) ->
  dict_get (json_metadata_loop item f base) r = dict_get base r.
Proof.
  intros H. rewrite json_metadata_loop_collect.
  apply collect_get_untouched. intros [k v] Hb Hk. simpl in Hk. subst k.
  unfold json_kept. simpl. destruct (H v Hb) as [->|Hs].
  - now rewrite String.eqb_refl.
  - rewrite Hs. now rewrite andb_false_r.
Qed.

Lemma json_metadata_keys item f base k :
  In k (keys (json_metadata_loop item f base)) ->
  In k (keys base)
  \/ exists v, In (k, v) item /\ k <> f /\ is_scalar v = true.
Proof.
  rewrite json_metadata_loop_collect. intros H.
  apply collect_keys_kept in H.
  destruct H as [H|([k' v'] & w & Hin & Hk & Hw)]; [now left|].
  simpl in Hk. subst k'. apply json_kept_scalar in Hw. simpl in Hw.
  destruct Hw as (-> & Hs & Hne). right. now exists v'.
Qed.

(** The object of a mapping's key, when the locator names a field. *)
Lemma mapping_object_document file_path key item f :
  NoDup (keys item) ->
  _identify_json_content_field item = Some f ->
  f <> "" ->
  exists text,
    dict_get item f = Some (VStr text)
    /\ mapping_documents file_path (key, VDict item)
       = [{| content := VStr text;
             metadata :=
               json_metadata_loop item f
                 [("source", VStr (name file_path));
                  ("file_type", VStr "json");
                  ("document_id", VStr key)] |}].
Proof.
  intros Hnd Hf Hne.
  destruct (located_field_text item f Hnd Hf) as (text & Ht & _).
  exists text. split; [exact Ht|].
  unfold mapping_documents, nested_record, field_found. simpl.
  now rewrite Hf, (nonempty_true f Hne), Ht.
Qed.

(** A record with a field document_id of its own: the document carries
    the record's value, not the key of the record. *)
Lemma nested_document_id_overwritten :
  let root :=
    Dir [("records.json",
          Samples.json_file (VDict Samples.record_with_document_id))] in
  exists d,
    fst (ingest_file root ["records.json"] init_stats)
    = Ok (SuccessDocuments [d])
    /\ content d = VStr "fever"
    /\ dict_get (metadata d) "document_id" = Some (VStr "mine")
    /\ dict_get (metadata d) "document_id" <> Some (VStr "rec1").
Proof.
  eexists. split; [reflexivity|]. split; [reflexivity|].
  split; [reflexivity|]. discriminate.
Qed.

(** C5, as the code has it.  A JSON file whose payload is a single
    mapping [d] gives, key by key and in order, these documents.  A key
    whose value is a string longer than 100 characters: one document with
    that string as content and exactly source, file_type and key as
    metadata; a shorter string: none.  A key whose value is an object for
    which the field locator names a field (of a name that is not empty):
    one document whose content is the string in that field and whose
    metadata holds every other scalar field of the object under its own
    name, holds source, file_type and document_id = key wherever no such
    field of the object bears that name, and holds nothing else; an
    object without a content field: none.  The call fails with
    "No valid documents found" exactly when there is no document at all,
    and otherwise succeeds with the documents and counts them. *)
Theorem single_mapping_file
    (root : node) (file_path : path) (d : dict value) (s : Stats) :
  open_json_load (resolve root file_path) = Ok (VDict d) ->
  let documents := flat_map (mapping_documents file_path) d in
  _ingest_json_file root file_path s
  = match documents with
    | [] => (Ok (Failure "No valid documents found"), s)
    | _ :: _ =>
        (Ok (SuccessDocuments documents), bump (List.length documents) s)
    end
  /\ (fst (_ingest_json_file root file_path s)
      = Ok (Failure "No valid documents found")
      <-> documents = [])
  /\ (forall key text,
        mapping_documents file_path (key, VStr text)
        = if 100 <? String.length text
          then [{| content := VStr text;
                   metadata := [("source", VStr (name file_path));
                                ("file_type", VStr "json");
                                ("key", VStr key)] |}]
          else [])
  /\ (forall key item f,
        NoDup (keys item) ->
        _identify_json_content_field item = Some f ->
        f <> "" ->
        exists text md,
          mapping_documents file_path (key, VDict item)
          = [{| content := VStr text; metadata := md |}]
          /\ dict_get item f = Some (VStr text)
          /\ (forall k v,
                In (k, v) item -> k <> f -> is_scalar v = true ->
                dict_get md k = Some v)
          /\ (forall r v0,
                In (r, v0) [("source", VStr (name file_path));
                            ("file_type", VStr "json");
                            ("document_id", VStr key)] ->
                (forall v, In (r, v) item -> r = f \/ is_scalar v = false) ->
                dict_get md r = Some v0)
          /\ (forall k,
                In k (keys md) ->
                k = "source" \/ k = "file_type" \/ k = "document_id"
                \/ exists v, In (k, v) item /\ k <> f /\ is_scalar v = true))
  /\ (forall key item,
        _identify_json_content_field item = None ->
        mapping_documents file_path (key, VDict item) = [])
  /\ (forall key v,
        (forall text, v <> VStr text) -> (forall item, v <> VDict item) ->
        mapping_documents file_path (key, v) = []).
Proof.
  intros Hload documents.
  pose proof (ingest_json_file_run root file_path (VDict d) s Hload) as Hrun.
  change (payload_documents file_path (VDict d)) with documents in Hrun.
  split; [|split; [|split; [|split; [|split]]]].
  - rewrite Hrun. now destruct documents.
  - rewrite Hrun. destruct documents as [|d0 rest]; simpl.
    + split; reflexivity.
    + split; intros H; discriminate H.
  - reflexivity.
  - intros key item f Hnd Hf Hne.
    destruct (mapping_object_document file_path key item f Hnd Hf Hne)
      as (text & Ht & Hdoc).
    exists text. eexists. split; [exact Hdoc|]. split; [exact Ht|].
    split; [|split].
    + intros k v. now apply json_metadata_field.
    + intros r v0 Hr Hfree. rewrite json_metadata_untouched by assumption.
      simpl in Hr.
      destruct Hr as [Hr|[Hr|[Hr|[]]]]; injection Hr as <- <-; reflexivity.
    + intros k Hk. apply json_metadata_keys in Hk.
      destruct Hk as [Hk|Hk]; [|tauto].
      simpl in Hk. intuition.
  - intros key item Hnone.
    unfold mapping_documents, nested_record. simpl. now rewrite Hnone.
  - intros key v Hs Hd. unfold mapping_documents. simpl.
    destruct v; try reflexivity.
    + exfalso. now apply (Hs s0).
    + exfalso. now apply (Hd d0).
Qed.

Lemma single_mapping_file_witness :
  _ingest_json_file
    (Dir [("records.json", Samples.json_file (VDict Samples.single_mapping))])
    ["records.json"] init_stats
  = (Ok (SuccessDocuments
           [{| content := VStr Samples.intro_text;
               metadata := [("source", VStr "records.json");
                            ("file_type", VStr "json");
                            ("key", VStr "intro")] |};
            {| content := VStr "hello world";
               metadata := [("source", VStr "records.json");
                            ("file_type", VStr "json");
                            ("document_id", VStr "meta");
                            ("tag", VStr "x")] |}]),
     {| files_processed := 0; documents_ingested := 2; errors := 0 |})
  /\ exists text md,
      mapping_documents ["records.json"]
        ("meta", VDict [("content", VStr "hello world"); ("tag", VStr "x")])
      = [{| content := VStr text; metadata := md |}]
      /\ dict_get md "document_id" = Some (VStr "meta")
      /\ dict_get md "tag" = Some (VStr "x").
Proof.
  destruct (single_mapping_file
              (Dir [("records.json",
                     Samples.json_file (VDict Samples.single_mapping))])
              ["records.json"] Samples.single_mapping init_stats eq_refl)
    as (Hrun & _ & _ & Hobject & _).
  split; [exact Hrun|].
  destruct (Hobject "meta" [("content", VStr "hello world"); ("tag", VStr "x")]
              "content")
    as (text & md & Hdoc & _ & Hfield & Hreserved & _).
  - repeat constructor; simpl; intuition discriminate.
  - reflexivity.
  - discriminate.
  - exists text, md. split; [exact Hdoc|]. split.
    + apply Hreserved.
      * simpl. auto.
      * intros v Hin. simpl in Hin.
        destruct Hin as [Hin|[Hin|[]]]; discriminate Hin.
    + apply Hfield.
      * simpl. auto.
      * discriminate.
      * reflexivity.
Defined.

End SingleMapping.
